(** * django-profiles: the profile views and the profile form helpers

    A shallow embedding of [profiles/views.py] and [profiles/utils.py].
    The views are Python functions that talk to Django (the ORM, the form
    library, the URL resolver, the template renderer).  They are embedded as
    computations in a small monad that threads the site (settings and
    database), may raise a Python exception, and emits the sequence of calls
    to collaborators that were executed. *)

From Stdlib Require Import Ascii.
From stdpp Require Import base strings gmap list.

Open Scope string_scope.
Open Scope list_scope.

(** ** Python values, exceptions *)

Inductive Value :=
| VNone
| VStr (s : string)
| VInt (n : nat)
| VList (l : list nat).

Global Instance Value_eq_dec : EqDecision Value.
Proof. solve_decision. Defined.

(** The exception classes the views name or can meet.  None of them is a
    subclass of another one of the list. *)
Inductive Exception :=
| ObjectDoesNotExist
| SiteProfileNotAvailable
| Http404
| KeyError (key : string)
| AttributeError (attr : string)
| IntegrityError.

Global Instance Exception_eq_dec : EqDecision Exception.
Proof. solve_decision. Defined.

(** [isinstance(e, exc)], for these classes. *)
Definition isinstance (e exc : Exception) : bool := bool_decide (e = exc).

Inductive Result (A : Type) :=
| Ok (a : A)
| Raise (e : Exception).
Arguments Ok {A} a.
Arguments Raise {A} e.

(** ** Data model *)

Abbreviation QueryDict := (gmap string Value).
Abbreviation ErrorDict := (gmap string (list string)).

(** [django.contrib.auth.models.User]: the primary key and the username. *)
Record User := { user_id : nat; username : string }.

(** [request.user] is a [User] or the [AnonymousUser]. *)
Inductive RequestUser :=
| AnonymousUser
| AuthUser (u : User).

Definition is_authenticated (ru : RequestUser) : bool :=
  match ru with AnonymousUser => false | AuthUser _ => true end.

(** [AnonymousUser.username] is the empty string. *)
Definition username_of (ru : RequestUser) : string :=
  match ru with AnonymousUser => "" | AuthUser u => username u end.

(** A form field: whether a value is required, the cleaned value of an
    empty submission, the conversion and validation of a submitted value
    (the error messages, or the cleaned value), and the field's own initial
    value. *)
Record FormField := {
  required : bool;
  empty_value : Value;
  to_python : Value → list string + Value;
  field_initial : option Value
}.

(** The kinds of model field the views and the form library tell apart. *)
Inductive FieldKind :=
| Auto          (* the AutoField primary key *)
| Relation      (* a ForeignKey *)
| ManyToMany
| Scalar.

Global Instance FieldKind_eq_dec : EqDecision FieldKind.
Proof. solve_decision. Defined.

(** A model field: its name and kind, whether it may be left blank, whether
    it is editable, and how its form field cleans a value. *)
Record Field := {
  f_name : string;
  kind : FieldKind;
  blank : bool;
  editable : bool;
  empty : Value;
  convert : Value → list string + Value
}.

(** [Model._meta]: the scalar fields and the many-to-many fields. *)
Record Options := { fields : list Field; many_to_many : list Field }.

Definition AutoField (name : string) : Field :=
  {| f_name := name; kind := Auto; blank := true; editable := true;
     empty := VNone; convert := λ v, inr v |}.

(** [ForeignKey(User)]: the form field takes the id of a user.  Validation
    is a function of the form class and the submitted data, so whether a
    user of that id is stored is not looked up. *)
Definition ForeignKey (name : string) (is_editable : bool) : Field :=
  {| f_name := name; kind := Relation; blank := false; editable := is_editable;
     empty := VNone;
     convert := λ v, match v with
                     | VInt n => inr (VInt n)
                     | _ => inl ["Select a valid choice."]
                     end |}.

Definition CharField (name : string) (max_length : nat) (may_be_blank : bool) : Field :=
  {| f_name := name; kind := Scalar; blank := may_be_blank; editable := true;
     empty := VStr "";
     convert := λ v, match v with
                     | VStr s =>
                         if Nat.leb (String.length s) max_length then inr (VStr s)
                         else inl ["Ensure this value has at most the allowed number of characters."]
                     | _ => inl ["Enter a valid value."]
                     end |}.

Definition ManyToManyField (name : string) : Field :=
  {| f_name := name; kind := ManyToMany; blank := true; editable := true;
     empty := VList [];
     convert := λ v, match v with
                     | VList l => inr (VList l)
                     | _ => inl ["Enter a list of values."]
                     end |}.

(** A profile model.  Its fields are the [id] that Django adds, the relation
    [user], and the fields of its own.  The views require the relation to
    the user to be "via a field on the profile model named [user], a
    requirement already imposed by [User.get_profile()]": a model without
    it cannot be a profile model ([get_profile()] could not query it), and
    is not a value of this type. *)
Record Model := {
  label : string;
  user_editable : bool;
  own_fields : list Field;
  own_many_to_many : list Field
}.

Definition _meta (m : Model) : Options :=
  {| fields := AutoField "id" :: ForeignKey "user" (user_editable m) :: own_fields m;
     many_to_many := own_many_to_many m |}.

(** A model instance: its primary key ([None] until it is stored), its model
    and its attribute values.  The relation to the user is the attribute
    [user], which holds the user's id. *)
Record Profile := { pk : option nat; model : Model; attrs : gmap string Value }.

(** The request: [path] is the full path, query string included
    ([request.get_full_path()]). *)
Record Request := {
  method : string;
  POST : QueryDict;
  user : RequestUser;
  path : string
}.

(** A form class.  [base_fields] is the class attribute the views edit; the
    methods take the current [base_fields] as Python methods take [self].
    [save_m2m_data] is [None] for a class without a [save_m2m] method. *)
Record FormClass := {
  base_fields : gmap string FormField;
  full_clean : gmap string FormField → QueryDict → ErrorDict;
  construct_instance : gmap string FormField → QueryDict → Profile;
  save_m2m_data : option (gmap string FormField → QueryDict → gmap string Value)
}.

(** A form instance: [form_class(data, initial=initial)]; an argument that
    was not passed is [None]. *)
Record Form := {
  form_class_of : FormClass;
  data : option QueryDict;
  initial : option (gmap string Value)
}.

(** A [ModelForm] subclass as [utils.py] declares it: the inner [Meta] with
    its [model] and [exclude], and the fields generated from them. *)
Record ModelFormClass := {
  meta_model : Profile;
  meta_exclude : list string;
  declared_fields : gmap string FormField
}.

Inductive ContextValue :=
| CForm (f : Form)
| CProfile (p : Profile).

Inductive HttpResponse :=
| HttpResponseRedirect (url : string)
| Rendered (template_name : string) (context : list (string * ContextValue)).

Definition status_code (r : HttpResponse) : nat :=
  match r with HttpResponseRedirect _ => 302 | Rendered _ _ => 200 end.

(** The site: settings, installed models, URL configuration and database.
    [profile_rows] is the table of the profile model. *)
Record World := {
  AUTH_PROFILE_MODULE : option string;
  installed_models : gmap string Model;
  urlconf : string → list (string * string) → string;
  auth_users : list User;
  profile_rows : list Profile
}.

Definition set_profile_rows (rows : list Profile) (w : World) : World :=
  {| AUTH_PROFILE_MODULE := AUTH_PROFILE_MODULE w;
     installed_models := installed_models w;
     urlconf := urlconf w;
     auth_users := auth_users w;
     profile_rows := rows |}.

(** The calls to collaborators, as they are executed. *)
Inductive Call :=
| Call_get_profile (u : User)
| Call_user_profile (u : User)
| Call_get_profile_model
| Call_reverse (viewname : string) (kwargs : list (string * string))
| Call_form_for_model (m : Model)
| Call_form_for_instance (p : Profile)
| Call_form_init (f : Form)
| Call_is_valid (f : Form)
| Call_form_save (f : Form) (commit : bool)
| Call_model_save (p : Profile)
| Call_save_m2m (f : Form)
| Call_get_object_or_404 (name : string)
| Call_render_to_response (template_name : string).

(** ** The monad: site state, exceptions, trace of calls *)

Definition M (A : Type) : Type := World → Result A * World * list Call.

Definition ret {A} (a : A) : M A := λ w, (Ok a, w, []).

Definition raise {A} (e : Exception) : M A := λ w, (Raise e, w, []).

Definition bind {A B} (c : M A) (k : A → M B) : M B :=
  λ w, match c w with
       | (Ok a, w1, t1) =>
           match k a w1 with (r, w2, t2) => (r, w2, t1 ++ t2) end
       | (Raise e, w1, t1) => (Raise e, w1, t1)
       end.

Notation "x <- c ;; k" := (bind c (λ x, k))
  (at level 100, c at next level, right associativity).
Notation "c ;;; k" := (bind c (λ _, k))
  (at level 100, right associativity).

Definition call (c : Call) : M unit := λ w, (Ok tt, w, [c]).

(** [try: body except exc: handler] *)
Definition try_except {A} (body : M A) (exc : Exception) (handler : M A) : M A :=
  λ w, match body w with
       | (Raise e, w1, t1) =>
           if isinstance e exc
           then match handler w1 with (r, w2, t2) => (r, w2, t1 ++ t2) end
           else (Raise e, w1, t1)
       | ok => ok
       end.

Definition response {A} (r : Result A * World * list Call) : Result A := r.1.1.
Definition world_after {A} (r : Result A * World * list Call) : World := r.1.2.
Definition trace {A} (r : Result A * World * list Call) : list Call := r.2.

(** ** Django, as far as the views use it

    The framework is not part of the package.  Each operation the views
    call is embedded with the behaviour of the library: the URL resolver and
    the renderer are total, the table of profiles is a list of rows. *)

(** *** URL resolver and templates *)

Definition reverse (viewname : string) (kwargs : list (string * string)) : M string :=
  call (Call_reverse viewname kwargs);;;
  λ w, (Ok (urlconf w viewname kwargs), w, []).

Definition render_to_response (template_name : string)
    (context : list (string * ContextValue)) : M HttpResponse :=
  call (Call_render_to_response template_name);;;
  ret (Rendered template_name context).

(** [urlquote]: letters, digits and [_.-/] stay, any other character
    becomes [%XX]. *)
Definition hex_digit (n : nat) : ascii :=
  default "0"%char (String.get n "0123456789ABCDEF").

Definition is_safe (c : ascii) : bool :=
  let n := nat_of_ascii c in
  (Nat.leb 48 n && Nat.leb n 57) || (Nat.leb 65 n && Nat.leb n 90)
  || (Nat.leb 97 n && Nat.leb n 122)
  || Ascii.eqb c "_" || Ascii.eqb c "." || Ascii.eqb c "-" || Ascii.eqb c "/".

Definition quote_char (c : ascii) : string :=
  if is_safe c then String c ""
  else String "%" (String (hex_digit (nat_of_ascii c / 16))
                     (String (hex_digit (nat_of_ascii c mod 16)) "")).

Fixpoint urlquote (s : string) : string :=
  match s with
  | EmptyString => ""
  | String c rest => quote_char c +:+ urlquote rest
  end.

(** *** The ORM *)

Definition owner (p : Profile) : option Value := attrs p !! "user".

Definition owned_by (u : User) (p : Profile) : bool :=
  bool_decide (owner p = Some (VInt (user_id u))).

(** The stored profile whose [user] is [u], if there is one. *)
Definition lookup_profile (rows : list Profile) (u : User) : option Profile :=
  find (owned_by u) rows.

(** [user.get_profile()].  It raises [SiteProfileNotAvailable] when the
    setting [AUTH_PROFILE_MODULE] is unset or names no installed model;
    otherwise it queries the table of the profile model for the row whose
    [user] is this user, and raises [ObjectDoesNotExist] when there is
    none.  The [AnonymousUser] has no such method. *)
Definition get_profile (ru : RequestUser) : M Profile :=
  match ru with
  | AnonymousUser => raise (AttributeError "get_profile")
  | AuthUser u =>
      call (Call_get_profile u);;;
      λ w, match AUTH_PROFILE_MODULE w with
           | None => (Raise SiteProfileNotAvailable, w, [])
           | Some name =>
               match installed_models w !! name with
               | None => (Raise SiteProfileNotAvailable, w, [])
               | Some _ =>
                   match lookup_profile (profile_rows w) u with
                   | Some p => (Ok p, w, [])
                   | None => (Raise ObjectDoesNotExist, w, [])
                   end
               end
           end
  end.

(** [user.profile], the reverse accessor of the relation: it reads the
    table and no setting, and raises [ObjectDoesNotExist] when the user has
    no profile. *)
Definition user_profile (u : User) : M Profile :=
  call (Call_user_profile u);;;
  λ w, match lookup_profile (profile_rows w) u with
       | Some p => (Ok p, w, [])
       | None => (Raise ObjectDoesNotExist, w, [])
       end.

(** The user of that name, if there is one. *)
Definition lookup_user (users : list User) (name : string) : option User :=
  find (λ u, String.eqb (username u) name) users.

(** [get_object_or_404(User, username=username)] *)
Definition get_object_or_404 (name : string) : M User :=
  call (Call_get_object_or_404 name);;;
  λ w, match lookup_user (auth_users w) name with
       | Some u => (Ok u, w, [])
       | None => (Raise Http404, w, [])
       end.

Definition has_pk (k : nat) (p : Profile) : bool := bool_decide (pk p = Some k).

Definition next_pk (rows : list Profile) : nat :=
  S (foldr (λ p n, match pk p with Some k => max k n | None => n end) 0 rows).

Definition with_pk (k : nat) (p : Profile) : Profile :=
  {| pk := Some k; model := model p; attrs := attrs p |}.

(** [Model.save()] on the table: an object whose primary key is stored
    replaces that row, any other object is inserted, with a fresh primary
    key when it has none.  The result is the table and the object as it is
    after the call. *)
Definition save_row (obj : Profile) (rows : list Profile) : list Profile * Profile :=
  match pk obj with
  | Some k =>
      if existsb (has_pk k) rows
      then (map (λ r, if has_pk k r then obj else r) rows, obj)
      else (rows ++ [obj], obj)
  | None =>
      let obj' := with_pk (next_pk rows) obj in
      (rows ++ [obj'], obj')
  end.

(** The column [user_id] is not null: the object has a user. *)
Definition has_owner (obj : Profile) : bool :=
  match owner obj with Some (VInt _) => true | _ => false end.

(** [obj.save()]: the database refuses, with [IntegrityError], an object
    without a user; nothing is stored then. *)
Definition model_save (obj : Profile) : M Profile :=
  call (Call_model_save obj);;;
  λ w, if has_owner obj
       then match save_row obj (profile_rows w) with
            | (rows, obj') => (Ok obj', set_profile_rows rows w, [])
            end
       else (Raise IntegrityError, w, []).

(** [f.value_from_object(obj)]: the primary key for the [AutoField], the
    list of related keys for a many-to-many field, the attribute of the
    object for any other field (for [user], the user's id). *)
Definition value_from_object (f : Field) (obj : Profile) : Value :=
  match kind f with
  | Auto => match pk obj with Some k => VInt k | None => VNone end
  | ManyToMany => default (VList []) (attrs obj !! f_name f)
  | Relation | Scalar => default VNone (attrs obj !! f_name f)
  end.

(** [profile_obj.user = request.user] *)
Definition set_user (obj : Profile) (ru : RequestUser) : Profile :=
  {| pk := pk obj; model := model obj;
     attrs := <["user" := match ru with
                         | AuthUser u => VInt (user_id u)
                         | AnonymousUser => VNone
                         end]> (attrs obj) |}.

(** *** The form library *)

Definition field_names (opts : Options) : list string :=
  f_name <$> (fields opts ++ many_to_many opts).

(** [f.formfield(initial=...)]: the [AutoField] has no form field. *)
Definition formfield (f : Field) (ini : option Value) : option FormField :=
  match kind f with
  | Auto => None
  | _ => Some {| required := negb (blank f); empty_value := empty f;
                 to_python := convert f; field_initial := ini |}
  end.

(** Whether the form library makes a form field for the model field: the
    field is editable, not excluded, and has a form field. *)
Definition in_form (exclude : list string) (f : Field) : bool :=
  editable f && bool_decide (f_name f ∉ exclude)
  && match kind f with Auto => false | _ => true end.

(** The form fields generated for a model: one per editable field of the
    model, scalar or many-to-many, that has a form field and whose name is
    not in [exclude].  With an instance, each form field has the current
    value of the instance as its initial value. *)
Definition field_list (opts : Options) (inst : option Profile)
    (exclude : list string) : list (string * FormField) :=
  omap (λ f, if in_form exclude f
             then (λ ff, (f_name f, ff)) <$>
                    formfield f (value_from_object f <$> inst)
             else None)
       (fields opts ++ many_to_many opts).

(** The dictionary of the list: a later entry of a name replaces an
    earlier one. *)
Definition fields_for_model (opts : Options) (inst : option Profile)
    (exclude : list string) : gmap string FormField :=
  list_to_map (list.reverse (field_list opts inst exclude)).

(** The values [None], [''] and [[]] count as not given. *)
Definition is_empty (v : option Value) : bool :=
  match v with
  | None | Some VNone | Some (VStr "") | Some (VList []) => true
  | _ => false
  end.

(** [field.clean(value)]: the error messages, or the cleaned value. *)
Definition field_clean (ff : FormField) (v : option Value) : list string + Value :=
  if is_empty v
  then if required ff then inl ["This field is required."] else inr (empty_value ff)
  else to_python ff (default VNone v).

(** [form.errors] of a bound form: the fields whose value does not clean. *)
Definition field_errors (bf : gmap string FormField) (d : QueryDict) : ErrorDict :=
  map_imap (λ name ff, match field_clean ff (d !! name) with
                       | inl messages => Some messages
                       | inr _ => None
                       end) bf.

(** [form.cleaned_data]: the cleaned values of the fields that clean. *)
Definition cleaned_data (bf : gmap string FormField) (d : QueryDict)
    : gmap string Value :=
  map_imap (λ name ff, match field_clean ff (d !! name) with
                       | inl _ => None
                       | inr v => Some v
                       end) bf.

(** The fields of the model that a form may write: editable, and not the
    [AutoField]. *)
Definition writable (f : Field) : bool :=
  editable f && match kind f with Auto => false | _ => true end.

Definition cleaned (names : list string) (bf : gmap string FormField)
    (d : QueryDict) : gmap string Value :=
  filter (λ kv, kv.1 ∈ names) (cleaned_data bf d).

(** The form writes the cleaned values of its scalar fields to the object;
    the other attributes stay. *)
Definition save_instance (inst : Profile) (bf : gmap string FormField)
    (d : QueryDict) : Profile :=
  {| pk := pk inst; model := model inst;
     attrs := cleaned (f_name <$> filter (λ f, writable f = true)
                                    (fields (_meta (model inst)))) bf d
              ∪ attrs inst |}.

Definition m2m_data (m : Model) (bf : gmap string FormField) (d : QueryDict)
    : gmap string Value :=
  cleaned (f_name <$> many_to_many (_meta m)) bf d.

Definition new_instance (m : Model) : Profile :=
  {| pk := None; model := m; attrs := ∅ |}.

(** The class that [form_for_model(m)] makes. *)
Definition form_for_model_class (m : Model) : FormClass :=
  {| base_fields := fields_for_model (_meta m) None [];
     full_clean := field_errors;
     construct_instance := save_instance (new_instance m);
     save_m2m_data := Some (m2m_data m) |}.

(** The class that [form_for_instance(inst)] makes: its fields show the
    values of the instance, and its [save()] updates the instance. *)
Definition form_for_instance_class (inst : Profile) : FormClass :=
  {| base_fields := fields_for_model (_meta (model inst)) (Some inst) [];
     full_clean := field_errors;
     construct_instance := save_instance inst;
     save_m2m_data := Some (m2m_data (model inst)) |}.

(** [django.newforms.form_for_model] *)
Definition form_for_model (m : Model) : M FormClass :=
  call (Call_form_for_model m);;;
  ret (form_for_model_class m).

(** [django.newforms.form_for_instance] *)
Definition form_for_instance (inst : Profile) : M FormClass :=
  call (Call_form_for_instance inst);;;
  ret (form_for_instance_class inst).

(** [del form_class.base_fields[key]]: a [KeyError] when the key is absent. *)
Definition del_item (key : string) (fc : FormClass) : Result FormClass :=
  match base_fields fc !! key with
  | Some _ =>
      Ok {| base_fields := delete key (base_fields fc);
            full_clean := full_clean fc;
            construct_instance := construct_instance fc;
            save_m2m_data := save_m2m_data fc |}
  | None => Raise (KeyError key)
  end.

Definition del_base_field (key : string) (fc : FormClass) : M FormClass :=
  λ w, (del_item key fc, w, []).

(** [form_class(data, initial=initial)] *)
Definition form_init (fc : FormClass) (d : option QueryDict)
    (ini : option (gmap string Value)) : M Form :=
  let form := {| form_class_of := fc; data := d; initial := ini |} in
  call (Call_form_init form);;;
  ret form.

(** [form.errors]: empty for a form without data. *)
Definition errors (form : Form) : ErrorDict :=
  match data form with
  | Some d => full_clean (form_class_of form) (base_fields (form_class_of form)) d
  | None => ∅
  end.

(** [form.is_valid()]: the form has data and no errors. *)
Definition form_is_valid (form : Form) : bool :=
  match data form with
  | Some _ => bool_decide (errors form = ∅)
  | None => false
  end.

Definition is_valid (form : Form) : M bool :=
  call (Call_is_valid form);;;
  ret (form_is_valid form).

(** What a field of the form displays: the submitted value when the form
    has data; otherwise the entry of the form's [initial] argument, and
    without one the field's own initial value. *)
Definition bound_field_data (form : Form) (name : string) : option Value :=
  match data form with
  | Some d => d !! name
  | None =>
      match default ∅ (initial form) !! name with
      | Some v => Some v
      | None => base_fields (form_class_of form) !! name ≫= field_initial
      end
  end.

Definition submitted (form : Form) : QueryDict := default ∅ (data form).

(** What [save_m2m] writes for the form, when its class has the method. *)
Definition m2m_values (form : Form) : option (gmap string Value) :=
  (λ values, values (base_fields (form_class_of form)) (submitted form)) <$>
    save_m2m_data (form_class_of form).

Definition write_row (vals : gmap string Value) (obj r : Profile) : Profile :=
  if bool_decide (pk r = pk obj)
  then {| pk := pk r; model := model r; attrs := vals ∪ attrs r |}
  else r.

(** The many-to-many values of the form are written to the stored rows of
    the object. *)
Definition write_m2m (form : Form) (obj : Profile) : M unit :=
  match m2m_values form with
  | Some vals =>
      λ w, (Ok tt, set_profile_rows (write_row vals obj <$> profile_rows w) w, [])
  | None => ret tt
  end.

(** [form.save(commit)]: builds the object from the cleaned data; with
    [commit] it is stored too, with its many-to-many values. *)
Definition form_save (form : Form) (commit : bool) : M Profile :=
  call (Call_form_save form commit);;;
  let obj := construct_instance (form_class_of form)
               (base_fields (form_class_of form)) (submitted form) in
  if commit
  then obj <- model_save obj;; write_m2m form obj;;; ret obj
  else ret obj.

(** [hasattr(form, 'save_m2m')] *)
Definition hasattr_save_m2m (form : Form) : bool :=
  match save_m2m_data (form_class_of form) with Some _ => true | None => false end.

(** [form.save_m2m()], on the object the form built: the view holds the
    same object, so its primary key is the one [save()] gave it. *)
Definition form_save_m2m (form : Form) (obj : Profile) : M unit :=
  call (Call_save_m2m form);;;
  write_m2m form obj.

(** *** Authentication *)

Definition LOGIN_URL : string := "/accounts/login/".

(** [login_required(view)]: an anonymous request is sent to the login page,
    with the quoted path of the request as [next]. *)
Definition login_required (view : Request → M HttpResponse) (request : Request)
    : M HttpResponse :=
  if is_authenticated (user request)
  then view request
  else ret (HttpResponseRedirect (LOGIN_URL +:+ "?next=" +:+ urlquote (path request))).

(** ** profiles/utils.py *)

Module utils.

(** Modelled from the spec: [get_profile_model], which [views.py] imports
    from [profiles.utils], is not defined in the [utils.py] at hand.  The
    resolver reads the setting naming the profile model; it fails with the
    "profile not configured" error when the setting is unset, and with the
    same error when the setting does not name a registered model. *)
Definition get_profile_model : M Model :=
  call Call_get_profile_model;;;
  λ w, match AUTH_PROFILE_MODULE w with
       | None => (Raise SiteProfileNotAvailable, w, [])
       | Some name =>
           match installed_models w !! name with
           | Some m => (Ok m, w, [])
           | None => (Raise SiteProfileNotAvailable, w, [])
           end
       end.

(** [get_profile_form(user)]: the [ModelForm] subclass whose [Meta] has
    [model = user.profile], the profile object itself, and
    [exclude = ('user',)]. *)
Definition get_profile_form (user : User) : M ModelFormClass :=
  profile <- user_profile user;;
  ret {| meta_model := profile;
         meta_exclude := ["user"];
         declared_fields := fields_for_model (_meta (model profile)) None ["user"] |}.

End utils.

(** ** profiles/views.py *)

Module views.
Import utils.

Definition create_profile_template : string := "profiles/create_profile.html".
Definition edit_profile_template : string := "profiles/edit_profile.html".
Definition profile_detail_template : string := "profiles/profile_detail.html".

(** The function [create_profile] as it is written, before it is wrapped.
    The [try] block either returns a response or falls through. *)
Definition create_profile_view (form_class : option FormClass)
    (success_url : option string) (template_name : string)
    (request : Request) : M HttpResponse :=
  returned <-
    try_except
      (profile_obj <- get_profile (user request);;
       url <- reverse "profiles_edit_profile" [];;
       ret (Some (HttpResponseRedirect url)))
      ObjectDoesNotExist
      (ret None);;
  match returned with
  | Some resp => ret resp
  | None =>
      profile_model <- get_profile_model;;
      success_url <-
        match success_url with
        | None => reverse "profiles_profile_detail"
                    [("username", username_of (user request))]
        | Some url => ret url
        end;;
      form_class <-
        match form_class with
        | None => form_class <- form_for_model profile_model;;
                  del_base_field "user" form_class
        | Some form_class => ret form_class
        end;;
      if String.eqb (method request) "POST"
      then
        form <- form_init form_class (Some (POST request)) None;;
        valid <- is_valid form;;
        if valid : bool
        then
          profile_obj <- form_save form false;;
          profile_obj <- model_save (set_user profile_obj (user request));;
          (if hasattr_save_m2m form
           then form_save_m2m form profile_obj
           else ret tt);;;
          ret (HttpResponseRedirect success_url)
        else render_to_response template_name [("form", CForm form)]
      else
        form <- form_init form_class None None;;
        render_to_response template_name [("form", CForm form)]
  end.

(** [create_profile = login_required(create_profile)] *)
Definition create_profile (request : Request) (form_class : option FormClass)
    (success_url : option string) (template_name : string) : M HttpResponse :=
  login_required (create_profile_view form_class success_url template_name) request.

Definition get_initial_data (profile_obj : Profile) : gmap string Value :=
  let opts := _meta (model profile_obj) in
  foldl (λ data_dict f, <[f_name f := value_from_object f profile_obj]> data_dict)
        ∅ (fields opts ++ many_to_many opts).

Definition edit_profile_view (form_class : option FormClass)
    (success_url : option string) (template_name : string)
    (request : Request) : M HttpResponse :=
  fetched <-
    try_except
      (profile_obj <- get_profile (user request);; ret (inl profile_obj))
      ObjectDoesNotExist
      (url <- reverse "profiles_create_profile" [];;
       ret (inr (HttpResponseRedirect url)));;
  match fetched with
  | inr resp => ret resp
  | inl profile_obj =>
      success_url <-
        match success_url with
        | None => reverse "profiles_profile_detail"
                    [("username", username_of (user request))]
        | Some url => ret url
        end;;
      form_class <-
        match form_class with
        | None => form_class <- form_for_instance profile_obj;;
                  del_base_field "user" form_class
        | Some form_class => ret form_class
        end;;
      if String.eqb (method request) "POST"
      then
        form <- form_init form_class (Some (POST request))
                  (Some (get_initial_data profile_obj));;
        valid <- is_valid form;;
        if valid : bool
        then
          form_save form true;;;
          ret (HttpResponseRedirect success_url)
        else render_to_response template_name
               [("form", CForm form); ("profile", CProfile profile_obj)]
      else
        form <- form_init form_class None None;;
        render_to_response template_name
          [("form", CForm form); ("profile", CProfile profile_obj)]
  end.

(** [edit_profile = login_required(edit_profile)] *)
Definition edit_profile (request : Request) (form_class : option FormClass)
    (success_url : option string) (template_name : string) : M HttpResponse :=
  login_required (edit_profile_view form_class success_url template_name) request.

Definition profile_detail (request : Request) (username : string)
    (template_name : string) : M HttpResponse :=
  user <- get_object_or_404 username;;
  profile_obj <-
    try_except (get_profile (AuthUser user)) ObjectDoesNotExist (raise Http404);;
  render_to_response template_name [("profile", CProfile profile_obj)].

End views.

Import utils views.

(** ** Vocabulary of the statements

    The form class a view works with (the caller's, or the generated one
    with [user] deleted), the redirect target, and the calls made before
    the form is instantiated.  Lemmas [create_form_inits] and
    [edit_form_inits] show that the views instantiate these classes. *)

(** What [write_m2m] leaves in the table. *)
Definition rows_after_m2m (form : Form) (obj : Profile) (rows : list Profile)
    : list Profile :=
  match m2m_values form with
  | Some vals => write_row vals obj <$> rows
  | None => rows
  end.

(** The form class of [create_profile]: [form_class], or, when it is [None],
    [form_for_model(profile_model)] after [del base_fields['user']]. *)
Definition create_form (form_class : option FormClass) (m : Model) : Result FormClass :=
  match form_class with
  | Some fc => Ok fc
  | None => del_item "user" (form_for_model_class m)
  end.

Definition detail_url (w : World) (u : User) : string :=
  urlconf w "profiles_profile_detail" [("username", username u)].

Definition success_target (w : World) (success_url : option string) (u : User) : string :=
  default (detail_url w u) success_url.

(** The calls before the form is instantiated. *)
Definition create_prelude (form_class : option FormClass)
    (success_url : option string) (u : User) (m : Model) : list Call :=
  [Call_get_profile u; Call_get_profile_model]
  ++ match success_url with
     | None => [Call_reverse "profiles_profile_detail" [("username", username u)]]
     | Some _ => []
     end
  ++ match form_class with
     | None => [Call_form_for_model m]
     | Some _ => []
     end.

(** The form class of [edit_profile]: [form_class], or, when it is [None],
    [form_for_instance(profile_obj)] after [del base_fields['user']]. *)
Definition edit_form (form_class : option FormClass) (p : Profile) : Result FormClass :=
  match form_class with
  | Some fc => Ok fc
  | None => del_item "user" (form_for_instance_class p)
  end.

Definition edit_prelude (form_class : option FormClass)
    (success_url : option string) (u : User) (p : Profile) : list Call :=
  [Call_get_profile u]
  ++ match success_url with
     | None => [Call_reverse "profiles_profile_detail" [("username", username u)]]
     | Some _ => []
     end
  ++ match form_class with
     | None => [Call_form_for_instance p]
     | Some _ => []
     end.

(** The names of the model fields, scalar and many-to-many, for which the
    form library makes a form field. *)
Definition form_field_names (opts : Options) : list string :=
  f_name <$> filter (λ f, in_form [] f = true) (fields opts ++ many_to_many opts).

(** The profile setting is unset, or names no installed model. *)
Definition profile_setting_unavailable (w : World) : Prop :=
  AUTH_PROFILE_MODULE w = None
  ∨ ∃ name, AUTH_PROFILE_MODULE w = Some name ∧ installed_models w !! name = None.

(** * A sample site *)

Module Sample.

Definition alice : User := {| user_id := 1; username := "alice" |}.
Definition bob : User := {| user_id := 2; username := "bob" |}.

(** A profile with a short text and tags: its fields are [id], [user],
    [bio], and the many-to-many [tags]. *)
Definition profile_model : Model :=
  {| label := "app.Profile";
     user_editable := true;
     own_fields := [CharField "bio" 20 false];
     own_many_to_many := [ManyToManyField "tags"] |}.

Definition bob_profile : Profile :=
  {| pk := Some 1; model := profile_model;
     attrs := {[ "user" := VInt 2; "bio" := VStr "hello" ]} |}.

Definition urls (viewname : string) (kwargs : list (string * string)) : string :=
  "/" +:+ viewname +:+ "/" +:+ default "" (snd <$> head kwargs).

(** Alice has no profile yet, Bob has one. *)
Definition site : World :=
  {| AUTH_PROFILE_MODULE := Some "app.Profile";
     installed_models := {[ "app.Profile" := profile_model ]};
     urlconf := urls;
     auth_users := [alice; bob];
     profile_rows := [bob_profile] |}.

(** The same site without the setting, and with a setting that names no
    installed model. *)
Definition site_unset : World :=
  {| AUTH_PROFILE_MODULE := None;
     installed_models := {[ "app.Profile" := profile_model ]};
     urlconf := urls;
     auth_users := [alice; bob];
     profile_rows := [bob_profile] |}.

Definition site_unknown : World :=
  {| AUTH_PROFILE_MODULE := Some "app.Missing";
     installed_models := {[ "app.Profile" := profile_model ]};
     urlconf := urls;
     auth_users := [alice; bob];
     profile_rows := [bob_profile] |}.

Definition bio_field : FormField :=
  {| required := true; empty_value := VStr "";
     to_python := convert (CharField "bio" 20 false); field_initial := None |}.

(** A form class of the caller: the [bio] alone, no [save_m2m]; its
    [save()] makes a new object. *)
Definition bio_form : FormClass :=
  {| base_fields := {[ "bio" := bio_field ]};
     full_clean := field_errors;
     construct_instance := save_instance (new_instance profile_model);
     save_m2m_data := None |}.

(** A form class of the caller for editing Bob's profile that keeps the
    field [user]: the class of [form_for_instance], nothing deleted. *)
Definition keep_user_form : FormClass := form_for_instance_class bob_profile.

Definition request_of (ru : RequestUser) (meth : string) (d : QueryDict) : Request :=
  {| method := meth; POST := d; user := ru; path := "/profiles/" |}.

Definition good_data : QueryDict :=
  {[ "bio" := VStr "new"; "user" := VInt 1; "tags" := VList [3; 4] ]}.

(** Data that name user 1, Alice, as the owner. *)
Definition takeover_data : QueryDict := {[ "bio" := VStr "new"; "user" := VInt 1 ]}.

(** The required [bio] is submitted empty. *)
Definition bad_data : QueryDict := {[ "bio" := VStr ""; "user" := VInt 1 ]}.

(** The default form classes of the two views for this model. *)
Definition create_default : FormClass :=
  {| base_fields := delete "user" (fields_for_model (_meta profile_model) None []);
     full_clean := field_errors;
     construct_instance := save_instance (new_instance profile_model);
     save_m2m_data := Some (m2m_data profile_model) |}.

Definition edit_default : FormClass :=
  {| base_fields :=
       delete "user" (fields_for_model (_meta profile_model) (Some bob_profile) []);
     full_clean := field_errors;
     construct_instance := save_instance bob_profile;
     save_m2m_data := Some (m2m_data profile_model) |}.

End Sample.

(** A site whose profile model declares [user] with [editable=False]. *)

Module Hidden.

Definition hidden_model : Model :=
  {| label := "app.Hidden";
     user_editable := false;
     own_fields := [CharField "bio" 20 false];
     own_many_to_many := [] |}.

Definition bob_row : Profile :=
  {| pk := Some 1; model := hidden_model;
     attrs := {[ "user" := VInt 2; "bio" := VStr "hello" ]} |}.

Definition site : World :=
  {| AUTH_PROFILE_MODULE := Some "app.Hidden";
     installed_models := {[ "app.Hidden" := hidden_model ]};
     urlconf := Sample.urls;
     auth_users := [Sample.alice; Sample.bob];
     profile_rows := [bob_row] |}.

End Hidden.

(** The sample site once Alice has a profile too. *)

Module Pair.

Definition alice_profile : Profile :=
  {| pk := Some 2; model := Sample.profile_model;
     attrs := {[ "user" := VInt 1; "bio" := VStr "hi" ]} |}.

Definition site : World :=
  {| AUTH_PROFILE_MODULE := Some "app.Profile";
     installed_models := {[ "app.Profile" := Sample.profile_model ]};
     urlconf := Sample.urls;
     auth_users := [Sample.alice; Sample.bob];
     profile_rows := [Sample.bob_profile; alice_profile] |}.

End Pair.

(** * Running the views *)

Arguments bind {A B} c k w /.
Arguments ret {A} a w /.
Arguments raise {A} e w /.
Arguments try_except {A} body exc handler w /.
Arguments login_required view request w /.
Arguments del_base_field key fc w /.
Arguments response {A} r /.
Arguments world_after {A} r /.
Arguments trace {A} r /.

Arguments isinstance : simpl never.
Arguments call : simpl never.
Arguments reverse : simpl never.
Arguments render_to_response : simpl never.
Arguments urlquote : simpl never.
Arguments lookup_profile : simpl never.
Arguments lookup_user : simpl never.
Arguments get_profile : simpl never.
Arguments user_profile : simpl never.
Arguments get_object_or_404 : simpl never.
Arguments save_row : simpl never.
Arguments has_owner : simpl never.
Arguments model_save : simpl never.
Arguments value_from_object : simpl never.
Arguments fields_for_model : simpl never.
Arguments field_errors : simpl never.
Arguments cleaned_data : simpl never.
Arguments form_for_model_class : simpl never.
Arguments form_for_instance_class : simpl never.
Arguments form_for_model : simpl never.
Arguments form_for_instance : simpl never.
Arguments del_item : simpl never.
Arguments form_init : simpl never.
Arguments errors : simpl never.
Arguments form_is_valid : simpl never.
Arguments is_valid : simpl never.
Arguments m2m_values : simpl never.
Arguments write_m2m : simpl never.
Arguments form_save : simpl never.
Arguments hasattr_save_m2m : simpl never.
Arguments form_save_m2m : simpl never.
Arguments set_user : simpl never.
Arguments utils.get_profile_model : simpl never.
Arguments views.get_initial_data : simpl never.

Section Primitives.
Context (w : World).

Lemma isinstance_same e : isinstance e e = true.
Proof. unfold isinstance. by rewrite bool_decide_eq_true. Qed.

Lemma isinstance_other e exc : e ≠ exc → isinstance e exc = false.
Proof. intros He. unfold isinstance. by rewrite bool_decide_eq_false. Qed.

Lemma reverse_run viewname kwargs :
  reverse viewname kwargs w =
    (Ok (urlconf w viewname kwargs), w, [Call_reverse viewname kwargs]).
Proof. reflexivity. Qed.

Lemma render_to_response_run template_name context :
  render_to_response template_name context w =
    (Ok (Rendered template_name context), w,
     [Call_render_to_response template_name]).
Proof. reflexivity. Qed.

Lemma get_profile_run u :
  get_profile (AuthUser u) w =
    (response (get_profile (AuthUser u) w), w, [Call_get_profile u]).
Proof.
  unfold get_profile, call. cbn.
  destruct (AUTH_PROFILE_MODULE w) as [name|]; [|done].
  destruct (installed_models w !! name); [|done].
  by destruct (lookup_profile (profile_rows w) u).
Qed.

(** [get_profile()] resolves the setting as the resolver does, and then
    looks the user up. *)
Lemma get_profile_response u :
  response (get_profile (AuthUser u) w) =
    match response (utils.get_profile_model w) with
    | Raise e => Raise e
    | Ok _ => match lookup_profile (profile_rows w) u with
              | Some p => Ok p
              | None => Raise ObjectDoesNotExist
              end
    end.
Proof.
  unfold get_profile, utils.get_profile_model, call. cbn.
  destruct (AUTH_PROFILE_MODULE w) as [name|]; [|done].
  destruct (installed_models w !! name); [|done].
  by destruct (lookup_profile (profile_rows w) u).
Qed.

Lemma get_profile_model_run :
  utils.get_profile_model w =
    (response (utils.get_profile_model w), w, [Call_get_profile_model]).
Proof.
  unfold utils.get_profile_model, call. cbn.
  destruct (AUTH_PROFILE_MODULE w) as [name|]; [|done].
  by destruct (installed_models w !! name).
Qed.

Lemma get_profile_model_raises e :
  response (utils.get_profile_model w) = Raise e → e = SiteProfileNotAvailable.
Proof.
  unfold utils.get_profile_model, call. cbn.
  destruct (AUTH_PROFILE_MODULE w) as [name|]; cbn; [|congruence].
  destruct (installed_models w !! name); cbn; congruence.
Qed.

Lemma get_profile_missing u m :
  response (utils.get_profile_model w) = Ok m →
  lookup_profile (profile_rows w) u = None →
  response (get_profile (AuthUser u) w) = Raise ObjectDoesNotExist.
Proof. intros Hm Hnone. by rewrite get_profile_response, Hm, Hnone. Qed.

Lemma get_profile_found u m p :
  response (utils.get_profile_model w) = Ok m →
  lookup_profile (profile_rows w) u = Some p →
  response (get_profile (AuthUser u) w) = Ok p.
Proof. intros Hm Hsome. by rewrite get_profile_response, Hm, Hsome. Qed.

Lemma get_profile_Ok u p :
  response (get_profile (AuthUser u) w) = Ok p →
  lookup_profile (profile_rows w) u = Some p
  ∧ ∃ m, response (utils.get_profile_model w) = Ok m.
Proof.
  rewrite get_profile_response.
  destruct (response (utils.get_profile_model w)) as [m|e]; [|done].
  destruct (lookup_profile (profile_rows w) u); [|done].
  intros [= ->]. eauto.
Qed.

Lemma get_profile_DoesNotExist u :
  response (get_profile (AuthUser u) w) = Raise ObjectDoesNotExist →
  lookup_profile (profile_rows w) u = None
  ∧ ∃ m, response (utils.get_profile_model w) = Ok m.
Proof.
  rewrite get_profile_response.
  destruct (response (utils.get_profile_model w)) as [m|e] eqn:Hm.
  - destruct (lookup_profile (profile_rows w) u); [done|]. eauto.
  - intros [= ->]. by apply get_profile_model_raises in Hm.
Qed.

Lemma get_profile_raises u e :
  response (get_profile (AuthUser u) w) = Raise e →
  e = ObjectDoesNotExist ∨ e = SiteProfileNotAvailable.
Proof.
  rewrite get_profile_response.
  destruct (response (utils.get_profile_model w)) as [m|e'] eqn:Hm.
  - destruct (lookup_profile (profile_rows w) u); [done|]. intros [= <-]. by left.
  - intros [= <-]. right. by apply get_profile_model_raises in Hm.
Qed.

Lemma form_for_model_run m :
  form_for_model m w = (Ok (form_for_model_class m), w, [Call_form_for_model m]).
Proof. reflexivity. Qed.

Lemma form_for_instance_run inst :
  form_for_instance inst w =
    (Ok (form_for_instance_class inst), w, [Call_form_for_instance inst]).
Proof. reflexivity. Qed.

Lemma form_init_run fc d ini :
  form_init fc d ini w =
    (Ok {| form_class_of := fc; data := d; initial := ini |}, w,
     [Call_form_init {| form_class_of := fc; data := d; initial := ini |}]).
Proof. reflexivity. Qed.

Lemma is_valid_run form :
  is_valid form w = (Ok (form_is_valid form), w, [Call_is_valid form]).
Proof. reflexivity. Qed.

Lemma model_save_run obj :
  has_owner obj = true →
  model_save obj w =
    (Ok (save_row obj (profile_rows w)).2,
     set_profile_rows (save_row obj (profile_rows w)).1 w,
     [Call_model_save obj]).
Proof.
  intros Hown. unfold model_save, call. cbn. rewrite Hown.
  by destruct (save_row obj (profile_rows w)).
Qed.

Lemma model_save_refused obj :
  has_owner obj = false →
  model_save obj w = (Raise IntegrityError, w, [Call_model_save obj]).
Proof. intros Hown. unfold model_save, call. cbn. by rewrite Hown. Qed.

Lemma form_save_no_commit_run form :
  form_save form false w =
    (Ok (construct_instance (form_class_of form)
           (base_fields (form_class_of form)) (submitted form)),
     w, [Call_form_save form false]).
Proof. reflexivity. Qed.

End Primitives.

Create Rewrite HintDb run.
#[global] Hint Rewrite isinstance_same reverse_run render_to_response_run
  form_for_model_run form_for_instance_run form_init_run is_valid_run
  form_save_no_commit_run : run.

Lemma owner_set_user obj u : owner (set_user obj (AuthUser u)) = Some (VInt (user_id u)).
Proof. unfold owner, set_user. cbn. by rewrite lookup_insert_eq. Qed.

Lemma has_owner_set_user obj u : has_owner (set_user obj (AuthUser u)) = true.
Proof. unfold has_owner. by rewrite owner_set_user. Qed.

Lemma save_m2m_step_exact form obj rows w :
  (if hasattr_save_m2m form then form_save_m2m form obj else ret ())
    (set_profile_rows rows w) =
    (Ok (), set_profile_rows (rows_after_m2m form obj rows) w,
     if hasattr_save_m2m form then [Call_save_m2m form] else []).
Proof.
  unfold hasattr_save_m2m, form_save_m2m, write_m2m, rows_after_m2m, m2m_values, call.
  by destruct (save_m2m_data (form_class_of form)).
Qed.

Lemma form_save_commit_exact form w :
  let obj := construct_instance (form_class_of form)
               (base_fields (form_class_of form)) (submitted form) in
  let stored := save_row obj (profile_rows w) in
  has_owner obj = true →
  form_save form true w =
    (Ok stored.2, set_profile_rows (rows_after_m2m form stored.2 stored.1) w,
     [Call_form_save form true; Call_model_save obj]).
Proof.
  intros obj stored Hown. unfold form_save. fold obj. unfold call. cbn.
  rewrite (model_save_run _ _ Hown). cbn. fold stored.
  unfold write_m2m, rows_after_m2m. by destruct (m2m_values form).
Qed.

Lemma form_save_commit_refused form w :
  let obj := construct_instance (form_class_of form)
               (base_fields (form_class_of form)) (submitted form) in
  has_owner obj = false →
  form_save form true w =
    (Raise IntegrityError, w, [Call_form_save form true; Call_model_save obj]).
Proof.
  intros obj Hown. unfold form_save. fold obj. unfold call. cbn.
  by rewrite (model_save_refused _ _ Hown).
Qed.

Ltac run := repeat (progress (cbn; autorewrite with run)).

(** ** The paths through [create_profile] *)

Section CreatePaths.
Context (request : Request) (form_class : option FormClass)
        (success_url : option string) (template_name : string)
        (w : World) (u : User).
Hypothesis Huser : user request = AuthUser u.

Lemma create_anonymous_free :
  create_profile request form_class success_url template_name w =
    create_profile_view form_class success_url template_name request w.
Proof. unfold create_profile. cbn. by rewrite Huser. Qed.

Lemma create_has_profile p :
  response (get_profile (AuthUser u) w) = Ok p →
  create_profile request form_class success_url template_name w =
    (Ok (HttpResponseRedirect (urlconf w "profiles_edit_profile" [])), w,
     [Call_get_profile u; Call_reverse "profiles_edit_profile" []]).
Proof.
  intros Hp. rewrite create_anonymous_free. unfold create_profile_view.
  rewrite Huser. cbn. rewrite get_profile_run, Hp. by run.
Qed.

Lemma create_lookup_raises e :
  response (get_profile (AuthUser u) w) = Raise e →
  e ≠ ObjectDoesNotExist →
  create_profile request form_class success_url template_name w =
    (Raise e, w, [Call_get_profile u]).
Proof.
  intros He Hne. rewrite create_anonymous_free. unfold create_profile_view.
  rewrite Huser. cbn. rewrite get_profile_run, He. cbn.
  by rewrite (isinstance_other _ _ Hne).
Qed.

Hypothesis Hnone : response (get_profile (AuthUser u) w) = Raise ObjectDoesNotExist.

Context (m : Model).
Hypothesis Hmodel : response (get_profile_model w) = Ok m.

Lemma create_form_raises e :
  create_form form_class m = Raise e →
  create_profile request form_class success_url template_name w =
    (Raise e, w, create_prelude form_class success_url u m).
Proof.
  intros He. rewrite create_anonymous_free. unfold create_profile_view.
  rewrite Huser. cbn. rewrite get_profile_run, Hnone. run.
  rewrite get_profile_model_run, Hmodel. run.
  unfold create_form in He. unfold create_prelude.
  destruct success_url, form_class; simplify_eq; run; rewrite ?He; by run.
Qed.

Context (cls : FormClass).
Hypothesis Hcls : create_form form_class m = Ok cls.

Lemma create_not_post :
  method request ≠ "POST" →
  let form := {| form_class_of := cls; data := None; initial := None |} in
  create_profile request form_class success_url template_name w =
    (Ok (Rendered template_name [("form", CForm form)]), w,
     create_prelude form_class success_url u m
     ++ [Call_form_init form; Call_render_to_response template_name]).
Proof.
  intros Hm form. rewrite create_anonymous_free. unfold create_profile_view.
  rewrite Huser. cbn. rewrite get_profile_run, Hnone. run.
  rewrite get_profile_model_run, Hmodel. run.
  apply String.eqb_neq in Hm. rewrite Hm.
  unfold create_form in Hcls. unfold create_prelude.
  destruct success_url, form_class; simplify_eq; run; rewrite ?Hcls; by run.
Qed.

Lemma create_post_invalid :
  method request = "POST" →
  let form := {| form_class_of := cls; data := Some (POST request); initial := None |} in
  form_is_valid form = false →
  create_profile request form_class success_url template_name w =
    (Ok (Rendered template_name [("form", CForm form)]), w,
     create_prelude form_class success_url u m
     ++ [Call_form_init form; Call_is_valid form;
         Call_render_to_response template_name]).
Proof.
  intros Hm form Hinv. rewrite create_anonymous_free. unfold create_profile_view.
  rewrite Huser. cbn. rewrite get_profile_run, Hnone. run.
  rewrite get_profile_model_run, Hmodel. run. rewrite Hm.
  unfold create_form in Hcls. unfold create_prelude.
  destruct success_url, form_class; simplify_eq; run; rewrite ?Hcls; run;
    fold form; rewrite Hinv; by run.
Qed.

Lemma create_post_valid :
  method request = "POST" →
  let form := {| form_class_of := cls; data := Some (POST request); initial := None |} in
  let obj := set_user (construct_instance cls (base_fields cls) (POST request))
               (AuthUser u) in
  let stored := save_row obj (profile_rows w) in
  form_is_valid form = true →
  create_profile request form_class success_url template_name w =
    (Ok (HttpResponseRedirect (success_target w success_url u)),
     set_profile_rows (rows_after_m2m form stored.2 stored.1) w,
     create_prelude form_class success_url u m
     ++ [Call_form_init form; Call_is_valid form; Call_form_save form false;
         Call_model_save obj]
     ++ (if hasattr_save_m2m form then [Call_save_m2m form] else [])).
Proof.
  intros Hm form obj stored Hval. rewrite create_anonymous_free.
  unfold create_profile_view.
  rewrite Huser. cbn. rewrite get_profile_run, Hnone. run.
  rewrite get_profile_model_run, Hmodel. run. rewrite Hm.
  unfold create_form in Hcls. unfold create_prelude, success_target, detail_url.
  pose proof (model_save_run w obj (has_owner_set_user _ u)) as Hsave.
  fold stored in Hsave.
  pose proof (save_m2m_step_exact form stored.2 stored.1 w) as Hm2m.
  destruct success_url, form_class; simplify_eq; run; rewrite ?Hcls; run;
    fold form; rewrite Hval; run; fold obj; rewrite Hsave; cbn;
    rewrite Hm2m; cbn; by rewrite app_nil_r.
Qed.
End CreatePaths.

(** ** The paths through [edit_profile] *)

Section EditPaths.
Context (request : Request) (form_class : option FormClass)
        (success_url : option string) (template_name : string)
        (w : World) (u : User).
Hypothesis Huser : user request = AuthUser u.

Lemma edit_anonymous_free :
  edit_profile request form_class success_url template_name w =
    edit_profile_view form_class success_url template_name request w.
Proof. unfold edit_profile. cbn. by rewrite Huser. Qed.

Lemma edit_no_profile :
  response (get_profile (AuthUser u) w) = Raise ObjectDoesNotExist →
  edit_profile request form_class success_url template_name w =
    (Ok (HttpResponseRedirect (urlconf w "profiles_create_profile" [])), w,
     [Call_get_profile u; Call_reverse "profiles_create_profile" []]).
Proof.
  intros Hp. rewrite edit_anonymous_free. unfold edit_profile_view.
  rewrite Huser. cbn. rewrite get_profile_run, Hp. by run.
Qed.

Lemma edit_lookup_raises e :
  response (get_profile (AuthUser u) w) = Raise e →
  e ≠ ObjectDoesNotExist →
  edit_profile request form_class success_url template_name w =
    (Raise e, w, [Call_get_profile u]).
Proof.
  intros He Hne. rewrite edit_anonymous_free. unfold edit_profile_view.
  rewrite Huser. cbn. rewrite get_profile_run, He. cbn.
  by rewrite (isinstance_other _ _ Hne).
Qed.

Context (p : Profile).
Hypothesis Hsome : response (get_profile (AuthUser u) w) = Ok p.

Lemma edit_form_raises e :
  edit_form form_class p = Raise e →
  edit_profile request form_class success_url template_name w =
    (Raise e, w, edit_prelude form_class success_url u p).
Proof.
  intros He. rewrite edit_anonymous_free. unfold edit_profile_view.
  rewrite Huser. cbn. rewrite get_profile_run, Hsome. run.
  unfold edit_form in He. unfold edit_prelude.
  destruct success_url, form_class; simplify_eq; run; rewrite ?He; by run.
Qed.

Context (cls : FormClass).
Hypothesis Hcls : edit_form form_class p = Ok cls.

Lemma edit_not_post :
  method request ≠ "POST" →
  let form := {| form_class_of := cls; data := None; initial := None |} in
  edit_profile request form_class success_url template_name w =
    (Ok (Rendered template_name [("form", CForm form); ("profile", CProfile p)]),
     w,
     edit_prelude form_class success_url u p
     ++ [Call_form_init form; Call_render_to_response template_name]).
Proof.
  intros Hm form. rewrite edit_anonymous_free. unfold edit_profile_view.
  rewrite Huser. cbn. rewrite get_profile_run, Hsome. run.
  apply String.eqb_neq in Hm. rewrite Hm.
  unfold edit_form in Hcls. unfold edit_prelude.
  destruct success_url, form_class; simplify_eq; run; rewrite ?Hcls; by run.
Qed.

Lemma edit_post_invalid :
  method request = "POST" →
  let form := {| form_class_of := cls; data := Some (POST request);
                 initial := Some (get_initial_data p) |} in
  form_is_valid form = false →
  edit_profile request form_class success_url template_name w =
    (Ok (Rendered template_name [("form", CForm form); ("profile", CProfile p)]),
     w,
     edit_prelude form_class success_url u p
     ++ [Call_form_init form; Call_is_valid form;
         Call_render_to_response template_name]).
Proof.
  intros Hm form Hinv. rewrite edit_anonymous_free. unfold edit_profile_view.
  rewrite Huser. cbn. rewrite get_profile_run, Hsome. run. rewrite Hm.
  unfold edit_form in Hcls. unfold edit_prelude.
  destruct success_url, form_class; simplify_eq; run; rewrite ?Hcls; run;
    fold form; rewrite Hinv; by run.
Qed.

Lemma edit_post_valid :
  method request = "POST" →
  let form := {| form_class_of := cls; data := Some (POST request);
                 initial := Some (get_initial_data p) |} in
  let obj := construct_instance cls (base_fields cls) (POST request) in
  let stored := save_row obj (profile_rows w) in
  form_is_valid form = true →
  has_owner obj = true →
  edit_profile request form_class success_url template_name w =
    (Ok (HttpResponseRedirect (success_target w success_url u)),
     set_profile_rows (rows_after_m2m form stored.2 stored.1) w,
     edit_prelude form_class success_url u p
     ++ [Call_form_init form; Call_is_valid form; Call_form_save form true;
         Call_model_save obj]).
Proof.
  intros Hm form obj stored Hval Hown. rewrite edit_anonymous_free.
  unfold edit_profile_view.
  rewrite Huser. cbn. rewrite get_profile_run, Hsome. run. rewrite Hm.
  unfold edit_form in Hcls. unfold edit_prelude, success_target, detail_url.
  pose proof (form_save_commit_exact form w Hown) as Hsave.
  destruct success_url, form_class; simplify_eq; run; rewrite ?Hcls; run;
    fold form; rewrite Hval; run; rewrite Hsave; by cbn.
Qed.

Lemma edit_post_refused :
  method request = "POST" →
  let form := {| form_class_of := cls; data := Some (POST request);
                 initial := Some (get_initial_data p) |} in
  let obj := construct_instance cls (base_fields cls) (POST request) in
  form_is_valid form = true →
  has_owner obj = false →
  edit_profile request form_class success_url template_name w =
    (Raise IntegrityError, w,
     edit_prelude form_class success_url u p
     ++ [Call_form_init form; Call_is_valid form; Call_form_save form true;
         Call_model_save obj]).
Proof.
  intros Hm form obj Hval Hown. rewrite edit_anonymous_free.
  unfold edit_profile_view.
  rewrite Huser. cbn. rewrite get_profile_run, Hsome. run. rewrite Hm.
  unfold edit_form in Hcls. unfold edit_prelude.
  pose proof (form_save_commit_refused form w Hown) as Hsave.
  destruct success_url, form_class; simplify_eq; run; rewrite ?Hcls; run;
    fold form; rewrite Hval; run; rewrite Hsave; by cbn.
Qed.
End EditPaths.

(** ** The form classes *)

Lemma in_form_formfield exclude f ini :
  in_form exclude f = true →
  formfield f ini =
    Some {| required := negb (blank f); empty_value := empty f;
            to_python := convert f; field_initial := ini |}.
Proof.
  unfold in_form, formfield. destruct (kind f); try done.
  by rewrite andb_false_r.
Qed.

Lemma field_list_names opts inst exclude :
  (field_list opts inst exclude).*1 =
    f_name <$> filter (λ f, in_form exclude f = true)
                 (fields opts ++ many_to_many opts).
Proof.
  unfold field_list. induction (fields opts ++ many_to_many opts) as [|f l IH]; [done|].
  rewrite filter_cons. cbn. destruct (in_form exclude f) eqn:Hf.
  - rewrite (in_form_formfield _ _ _ Hf). cbn.
    rewrite decide_True by done. cbn. by rewrite IH.
  - rewrite decide_False by done. done.
Qed.

Lemma elem_of_field_list opts inst exclude name ff :
  (name, ff) ∈ field_list opts inst exclude →
  ∃ f, f ∈ fields opts ++ many_to_many opts
       ∧ f_name f = name
       ∧ in_form exclude f = true
       ∧ ff = {| required := negb (blank f); empty_value := empty f;
                 to_python := convert f;
                 field_initial := value_from_object f <$> inst |}.
Proof.
  unfold field_list. intros (f & Hf & Hff)%list_elem_of_omap.
  exists f. split; [done|]. destruct (in_form exclude f) eqn:Hin; [|done].
  rewrite (in_form_formfield _ _ _ Hin) in Hff. cbn in Hff. by simplify_eq.
Qed.

Lemma dom_fields_for_model opts inst exclude :
  dom (fields_for_model opts inst exclude) =@{gset string}
    list_to_set (f_name <$> filter (λ f, in_form exclude f = true)
                              (fields opts ++ many_to_many opts)).
Proof.
  unfold fields_for_model. rewrite dom_list_to_map_L, fmap_reverse, field_list_names.
  apply set_eq. intros n. by rewrite !elem_of_list_to_set, elem_of_reverse.
Qed.

Lemma fields_for_model_lookup opts inst exclude name ff :
  fields_for_model opts inst exclude !! name = Some ff →
  ∃ f, f ∈ fields opts ++ many_to_many opts
       ∧ f_name f = name
       ∧ in_form exclude f = true
       ∧ ff = {| required := negb (blank f); empty_value := empty f;
                 to_python := convert f;
                 field_initial := value_from_object f <$> inst |}.
Proof.
  unfold fields_for_model. intros Hin%elem_of_list_to_map_2.
  rewrite elem_of_reverse in Hin. by apply elem_of_field_list in Hin.
Qed.

Lemma dom_form_for_model_class m :
  dom (base_fields (form_for_model_class m)) =@{gset string}
    list_to_set (form_field_names (_meta m)).
Proof. unfold form_for_model_class. cbn. apply dom_fields_for_model. Qed.

Lemma dom_form_for_instance_class p :
  dom (base_fields (form_for_instance_class p)) =@{gset string}
    list_to_set (form_field_names (_meta (model p))).
Proof. unfold form_for_instance_class. cbn. apply dom_fields_for_model. Qed.

(** The [user] field of a model has a form field exactly when it is
    editable, the profile's own fields aside. *)
Lemma user_in_form_fields m :
  user_editable m = true → "user" ∈ form_field_names (_meta m).
Proof.
  intros Hed. unfold form_field_names. apply list_elem_of_fmap.
  exists (ForeignKey "user" (user_editable m)). split; [done|].
  apply list_elem_of_filter. split.
  - unfold in_form, ForeignKey. cbn. rewrite Hed. cbn.
    rewrite bool_decide_eq_true_2; [done|]. apply not_elem_of_nil.
  - unfold _meta. cbn. apply elem_of_cons. right. apply elem_of_cons. by left.
Qed.

Lemma del_item_present key fc :
  key ∈ dom (base_fields fc) →
  ∃ fc', del_item key fc = Ok fc' ∧
         base_fields fc' = delete key (base_fields fc) ∧
         full_clean fc' = full_clean fc ∧
         construct_instance fc' = construct_instance fc ∧
         save_m2m_data fc' = save_m2m_data fc.
Proof.
  intros [ff Hff]%elem_of_dom. unfold del_item. rewrite Hff. eauto 10.
Qed.

Lemma del_item_absent key fc :
  key ∉ dom (base_fields fc) → del_item key fc = Raise (KeyError key).
Proof.
  intros H%not_elem_of_dom. unfold del_item. by rewrite H.
Qed.

Lemma del_item_Ok key fc fc' :
  del_item key fc = Ok fc' →
  base_fields fc' = delete key (base_fields fc) ∧
  full_clean fc' = full_clean fc ∧
  construct_instance fc' = construct_instance fc ∧
  save_m2m_data fc' = save_m2m_data fc.
Proof.
  unfold del_item. destruct (base_fields fc !! key); [|done].
  by intros [= <-].
Qed.

Lemma del_item_raises key fc e :
  del_item key fc = Raise e → e = KeyError key ∧ key ∉ dom (base_fields fc).
Proof.
  unfold del_item. destruct (base_fields fc !! key) eqn:Hk; [done|].
  intros [= <-]. split; [done|]. by apply not_elem_of_dom.
Qed.

Lemma create_default_dom m cls :
  create_form None m = Ok cls →
  dom (base_fields cls) =@{gset string}
    list_to_set (form_field_names (_meta m)) ∖ {["user"]}.
Proof.
  intros (Hbf & _)%del_item_Ok. by rewrite Hbf, dom_delete_L, dom_form_for_model_class.
Qed.

Lemma edit_default_dom p cls :
  edit_form None p = Ok cls →
  dom (base_fields cls) =@{gset string}
    list_to_set (form_field_names (_meta (model p))) ∖ {["user"]}.
Proof.
  intros (Hbf & _)%del_item_Ok.
  by rewrite Hbf, dom_delete_L, dom_form_for_instance_class.
Qed.

Lemma create_default_exists m :
  "user" ∈ form_field_names (_meta m) → ∃ cls, create_form None m = Ok cls.
Proof.
  intros Hin.
  destruct (del_item_present "user" (form_for_model_class m)) as (cls & Hcls & _).
  - rewrite dom_form_for_model_class. by apply elem_of_list_to_set.
  - eauto.
Qed.

Lemma edit_default_exists p :
  "user" ∈ form_field_names (_meta (model p)) → ∃ cls, edit_form None p = Ok cls.
Proof.
  intros Hin.
  destruct (del_item_present "user" (form_for_instance_class p)) as (cls & Hcls & _).
  - rewrite dom_form_for_instance_class. by apply elem_of_list_to_set.
  - eauto.
Qed.

(** Without a form field [user], the default form cannot be made. *)
Lemma create_default_needs_user m :
  "user" ∉ form_field_names (_meta m) →
  create_form None m = Raise (KeyError "user").
Proof.
  intros Hout. apply del_item_absent. rewrite dom_form_for_model_class.
  by rewrite elem_of_list_to_set.
Qed.

Lemma edit_default_needs_user p :
  "user" ∉ form_field_names (_meta (model p)) →
  edit_form None p = Raise (KeyError "user").
Proof.
  intros Hout. apply del_item_absent. rewrite dom_form_for_instance_class.
  by rewrite elem_of_list_to_set.
Qed.

(** ** [get_initial_data] *)

Lemma get_initial_data_dom p :
  dom (get_initial_data p) =@{gset string} list_to_set (field_names (_meta (model p))).
Proof.
  unfold get_initial_data, field_names.
  generalize (fields (_meta (model p)) ++ many_to_many (_meta (model p))).
  intros l. induction l as [|f l IH] using rev_ind.
  - cbn. apply dom_empty_L.
  - rewrite foldl_app, fmap_app. cbn. rewrite dom_insert_L, IH.
    rewrite list_to_set_app_L. cbn. rewrite (right_id_L ∅ (∪)).
    apply (comm_L (∪)).
Qed.

Lemma get_initial_data_lookup_Some p name v :
  get_initial_data p !! name = Some v →
  ∃ f, f ∈ fields (_meta (model p)) ++ many_to_many (_meta (model p))
       ∧ f_name f = name ∧ v = value_from_object f p.
Proof.
  unfold get_initial_data.
  generalize (fields (_meta (model p)) ++ many_to_many (_meta (model p))).
  intros l. induction l as [|f l IH] using rev_ind.
  - cbn. by rewrite lookup_empty.
  - rewrite foldl_app. cbn. destruct (decide (f_name f = name)) as [<-|Hne].
    + rewrite lookup_insert_eq. intros [= <-]. exists f. split; [|done].
      apply elem_of_app. right. by apply list_elem_of_singleton.
    + rewrite lookup_insert_ne by done. intros (f' & Hin & Hname & Hv)%IH.
      exists f'. split; [|done]. apply elem_of_app. by left.
Qed.

Lemma NoDup_fmap_eq {A B} (g : A → B) (l : list A) x y :
  NoDup (g <$> l) → x ∈ l → y ∈ l → g x = g y → x = y.
Proof.
  induction l as [|a l IH]; [by intros _ ?%elem_of_nil|].
  rewrite fmap_cons, NoDup_cons.
  intros [Hout Hnd] [->|Hx]%elem_of_cons [->|Hy]%elem_of_cons Heq; [done| | |by apply IH].
  - exfalso. apply Hout. rewrite Heq. by apply list_elem_of_fmap_2.
  - exfalso. apply Hout. rewrite <- Heq. by apply list_elem_of_fmap_2.
Qed.

Lemma get_initial_data_lookup p f :
  NoDup (field_names (_meta (model p))) →
  f ∈ fields (_meta (model p)) ++ many_to_many (_meta (model p)) →
  get_initial_data p !! f_name f = Some (value_from_object f p).
Proof.
  intros Hnd Hf.
  assert (f_name f ∈ dom (get_initial_data p)) as [v Hv]%elem_of_dom.
  { rewrite get_initial_data_dom. apply elem_of_list_to_set.
    unfold field_names. by apply list_elem_of_fmap_2. }
  rewrite Hv. destruct (get_initial_data_lookup_Some _ _ _ Hv) as (f' & Hf' & Hname & ->).
  by rewrite (NoDup_fmap_eq f_name _ f' f Hnd Hf' Hf Hname).
Qed.

(** ** The owner of an object *)

Lemma cleaned_outside names bf d key :
  key ∉ dom bf → cleaned names bf d !! key = None.
Proof.
  intros Hk%not_elem_of_dom. unfold cleaned. apply map_lookup_filter_None. left.
  unfold cleaned_data. by rewrite map_lookup_imap, Hk.
Qed.

Lemma owner_save_instance inst bf d :
  "user" ∉ dom bf → owner (save_instance inst bf d) = owner inst.
Proof.
  intros Hk. unfold owner, save_instance. cbn.
  rewrite lookup_union_r; [done|]. by apply cleaned_outside.
Qed.

Lemma has_owner_owned obj u :
  owner obj = Some (VInt (user_id u)) → has_owner obj = true.
Proof. intros Hown. unfold has_owner. by rewrite Hown. Qed.

(** ** The table *)

Lemma lookup_profile_Some rows u p :
  lookup_profile rows u = Some p → p ∈ rows ∧ owner p = Some (VInt (user_id u)).
Proof.
  unfold lookup_profile. intros [Hin Hown]%find_some. split.
  - by apply list_elem_of_In.
  - unfold owned_by in Hown. by apply bool_decide_eq_true in Hown.
Qed.

Lemma lookup_profile_is_Some rows u row :
  row ∈ rows → owner row = Some (VInt (user_id u)) → is_Some (lookup_profile rows u).
Proof.
  intros Hin Hown. unfold lookup_profile.
  destruct (find (owned_by u) rows) as [p|] eqn:Hfind; [by eexists|].
  apply list_elem_of_In in Hin.
  pose proof (find_none _ _ Hfind _ Hin) as Hno.
  unfold owned_by in Hno. apply bool_decide_eq_false in Hno. done.
Qed.

Lemma save_row_stored obj rows :
  (save_row obj rows).2 ∈ (save_row obj rows).1
  ∧ owner (save_row obj rows).2 = owner obj.
Proof.
  unfold save_row. destruct (pk obj) as [k|] eqn:Hpk.
  - destruct (existsb (has_pk k) rows) eqn:Hex; cbn.
    + split; [|done]. apply existsb_exists in Hex as (r & Hin & Hr).
      apply list_elem_of_In. apply in_map_iff. exists r. by rewrite Hr.
    + split; [|done]. apply elem_of_app. right. by apply list_elem_of_singleton.
  - cbn. split; [|done]. apply elem_of_app. right. by apply list_elem_of_singleton.
Qed.

Lemma owner_write_row vals obj r :
  vals !! "user" = None → owner (write_row vals obj r) = owner r.
Proof.
  intros Hv. unfold write_row, owner. case_bool_decide; [|done].
  cbn. by rewrite lookup_union_r.
Qed.

Lemma rows_after_m2m_owner form obj rows row :
  default ∅ (m2m_values form) !! "user" = None →
  row ∈ rows →
  ∃ row', row' ∈ rows_after_m2m form obj rows ∧ owner row' = owner row.
Proof.
  intros Hv Hin. unfold rows_after_m2m. destruct (m2m_values form) as [vals|].
  - exists (write_row vals obj row). split.
    + apply list_elem_of_fmap. eauto.
    + by apply owner_write_row.
  - eauto.
Qed.

Lemma create_default_m2m_no_user m cls d ini :
  create_form None m = Ok cls →
  default ∅ (m2m_values {| form_class_of := cls; data := d; initial := ini |})
    !! "user" = None.
Proof.
  intros (Hbf & _ & _ & Hm2m)%del_item_Ok.
  unfold m2m_values. cbn. rewrite Hm2m, Hbf. cbn. unfold m2m_data.
  apply cleaned_outside. rewrite dom_delete_L.
  intros [_ Hout]%elem_of_difference. apply Hout. by apply elem_of_singleton.
Qed.

Lemma edit_default_m2m_no_user p cls d ini :
  edit_form None p = Ok cls →
  default ∅ (m2m_values {| form_class_of := cls; data := d; initial := ini |})
    !! "user" = None.
Proof.
  intros (Hbf & _ & _ & Hm2m)%del_item_Ok.
  unfold m2m_values. cbn. rewrite Hm2m, Hbf. cbn. unfold m2m_data.
  apply cleaned_outside. rewrite dom_delete_L.
  intros [_ Hout]%elem_of_difference. apply Hout. by apply elem_of_singleton.
Qed.

(** The object that the default edit form builds is the profile, with its
    primary key and its owner. *)
Lemma edit_default_object p cls d :
  edit_form None p = Ok cls →
  pk (construct_instance cls (base_fields cls) d) = pk p
  ∧ owner (construct_instance cls (base_fields cls) d) = owner p.
Proof.
  intros (Hbf & _ & Hcons & _)%del_item_Ok. rewrite Hcons, Hbf.
  split; [done|]. apply owner_save_instance. rewrite dom_delete_L.
  intros [_ Hout]%elem_of_difference. apply Hout. by apply elem_of_singleton.
Qed.

(** The resolver reads the settings only. *)
Lemma get_profile_model_rows rows w :
  response (get_profile_model (set_profile_rows rows w)) =
    response (get_profile_model w).
Proof.
  unfold get_profile_model, call. cbn.
  destruct (AUTH_PROFILE_MODULE w) as [name|]; [|done].
  by destruct (installed_models w !! name).
Qed.

(** ** [profile_detail] *)

Lemma profile_detail_run request name template_name w :
  profile_detail request name template_name w =
    match lookup_user (auth_users w) name with
    | None => (Raise Http404, w, [Call_get_object_or_404 name])
    | Some u =>
        match response (get_profile (AuthUser u) w) with
        | Ok p =>
            (Ok (Rendered template_name [("profile", CProfile p)]), w,
             [Call_get_object_or_404 name; Call_get_profile u;
              Call_render_to_response template_name])
        | Raise e =>
            (Raise (if isinstance e ObjectDoesNotExist then Http404 else e), w,
             [Call_get_object_or_404 name; Call_get_profile u])
        end
    end.
Proof.
  unfold profile_detail, get_object_or_404, call. cbn.
  destruct (lookup_user (auth_users w) name) as [u|]; [|done]. cbn.
  rewrite get_profile_run.
  destruct (response (get_profile (AuthUser u) w)) as [p|e]; run; [done|].
  by destruct (isinstance e ObjectDoesNotExist).
Qed.

(** ** Every path through the views *)

Lemma create_profile_cases request form_class success_url template_name w :
  let r := create_profile request form_class success_url template_name w in
  (user request = AnonymousUser
   ∧ r = (Ok (HttpResponseRedirect
                (LOGIN_URL +:+ "?next=" +:+ urlquote (path request))), w, []))
  ∨ ∃ u, user request = AuthUser u ∧
    ((∃ p, response (get_profile (AuthUser u) w) = Ok p
           ∧ r = (Ok (HttpResponseRedirect (urlconf w "profiles_edit_profile" [])), w,
                  [Call_get_profile u; Call_reverse "profiles_edit_profile" []]))
     ∨ (∃ e, response (get_profile (AuthUser u) w) = Raise e
             ∧ e ≠ ObjectDoesNotExist
             ∧ r = (Raise e, w, [Call_get_profile u]))
     ∨ response (get_profile (AuthUser u) w) = Raise ObjectDoesNotExist ∧
       ∃ m, response (get_profile_model w) = Ok m ∧
         ((∃ e, create_form form_class m = Raise e
                ∧ r = (Raise e, w, create_prelude form_class success_url u m))
          ∨ ∃ cls, create_form form_class m = Ok cls ∧
            let unbound := {| form_class_of := cls; data := None; initial := None |} in
            let form := {| form_class_of := cls; data := Some (POST request);
                           initial := None |} in
            let obj := set_user (construct_instance cls (base_fields cls)
                                   (POST request)) (AuthUser u) in
            let stored := save_row obj (profile_rows w) in
            (method request ≠ "POST"
             ∧ r = (Ok (Rendered template_name [("form", CForm unbound)]), w,
                    create_prelude form_class success_url u m
                    ++ [Call_form_init unbound;
                        Call_render_to_response template_name]))
            ∨ (method request = "POST" ∧ form_is_valid form = false
               ∧ r = (Ok (Rendered template_name [("form", CForm form)]), w,
                      create_prelude form_class success_url u m
                      ++ [Call_form_init form; Call_is_valid form;
                          Call_render_to_response template_name]))
            ∨ (method request = "POST" ∧ form_is_valid form = true
               ∧ r = (Ok (HttpResponseRedirect (success_target w success_url u)),
                      set_profile_rows (rows_after_m2m form stored.2 stored.1) w,
                      create_prelude form_class success_url u m
                      ++ [Call_form_init form; Call_is_valid form;
                          Call_form_save form false; Call_model_save obj]
                      ++ (if hasattr_save_m2m form
                          then [Call_save_m2m form] else []))))).
Proof.
  intros r. subst r.
  destruct (user request) as [|u] eqn:Huser.
  { left. split; [done|]. unfold create_profile. cbn. by rewrite Huser. }
  right. exists u. split; [done|].
  destruct (response (get_profile (AuthUser u) w)) as [p|e] eqn:Hp.
  { left. exists p. split; [done|]. by eapply create_has_profile. }
  right. destruct (decide (e = ObjectDoesNotExist)) as [->|Hne].
  2:{ left. exists e. split; [done|]. split; [done|]. by eapply create_lookup_raises. }
  right. split; [done|].
  destruct (get_profile_DoesNotExist _ _ Hp) as (_ & m & Hm).
  exists m. split; [done|].
  destruct (create_form form_class m) as [cls|e] eqn:Hcls.
  2:{ left. exists e. split; [done|]. by eapply create_form_raises. }
  right. exists cls. split; [done|]. cbn zeta.
  destruct (decide (method request = "POST")) as [Hpost|Hpost].
  - right.
    destruct (form_is_valid {| form_class_of := cls; data := Some (POST request);
                               initial := None |}) eqn:Hvalid.
    + right. split; [done|]. split; [done|]. by eapply create_post_valid.
    + left. split; [done|]. split; [done|]. by eapply create_post_invalid.
  - left. split; [done|]. by eapply create_not_post.
Qed.

Lemma edit_profile_cases request form_class success_url template_name w :
  let r := edit_profile request form_class success_url template_name w in
  (user request = AnonymousUser
   ∧ r = (Ok (HttpResponseRedirect
                (LOGIN_URL +:+ "?next=" +:+ urlquote (path request))), w, []))
  ∨ ∃ u, user request = AuthUser u ∧
    ((response (get_profile (AuthUser u) w) = Raise ObjectDoesNotExist
      ∧ r = (Ok (HttpResponseRedirect (urlconf w "profiles_create_profile" [])), w,
             [Call_get_profile u; Call_reverse "profiles_create_profile" []]))
     ∨ (∃ e, response (get_profile (AuthUser u) w) = Raise e
             ∧ e ≠ ObjectDoesNotExist
             ∧ r = (Raise e, w, [Call_get_profile u]))
     ∨ ∃ p, response (get_profile (AuthUser u) w) = Ok p ∧
       ((∃ e, edit_form form_class p = Raise e
              ∧ r = (Raise e, w, edit_prelude form_class success_url u p))
        ∨ ∃ cls, edit_form form_class p = Ok cls ∧
          let unbound := {| form_class_of := cls; data := None; initial := None |} in
          let form := {| form_class_of := cls; data := Some (POST request);
                         initial := Some (get_initial_data p) |} in
          let obj := construct_instance cls (base_fields cls) (POST request) in
          let stored := save_row obj (profile_rows w) in
          (method request ≠ "POST"
           ∧ r = (Ok (Rendered template_name
                        [("form", CForm unbound); ("profile", CProfile p)]), w,
                  edit_prelude form_class success_url u p
                  ++ [Call_form_init unbound; Call_render_to_response template_name]))
          ∨ (method request = "POST" ∧ form_is_valid form = false
             ∧ r = (Ok (Rendered template_name
                          [("form", CForm form); ("profile", CProfile p)]), w,
                    edit_prelude form_class success_url u p
                    ++ [Call_form_init form; Call_is_valid form;
                        Call_render_to_response template_name]))
          ∨ (method request = "POST" ∧ form_is_valid form = true
             ∧ has_owner obj = true
             ∧ r = (Ok (HttpResponseRedirect (success_target w success_url u)),
                    set_profile_rows (rows_after_m2m form stored.2 stored.1) w,
                    edit_prelude form_class success_url u p
                    ++ [Call_form_init form; Call_is_valid form;
                        Call_form_save form true; Call_model_save obj]))
          ∨ (method request = "POST" ∧ form_is_valid form = true
             ∧ has_owner obj = false
             ∧ r = (Raise IntegrityError, w,
                    edit_prelude form_class success_url u p
                    ++ [Call_form_init form; Call_is_valid form;
                        Call_form_save form true; Call_model_save obj])))).
Proof.
  intros r. subst r.
  destruct (user request) as [|u] eqn:Huser.
  { left. split; [done|]. unfold edit_profile. cbn. by rewrite Huser. }
  right. exists u. split; [done|].
  destruct (response (get_profile (AuthUser u) w)) as [p|e] eqn:Hp.
  2:{ destruct (decide (e = ObjectDoesNotExist)) as [->|Hne].
      - left. split; [done|]. by eapply edit_no_profile.
      - right. left. exists e. split; [done|]. split; [done|].
        by eapply edit_lookup_raises. }
  right. right. exists p. split; [done|].
  destruct (edit_form form_class p) as [cls|e] eqn:Hcls.
  2:{ left. exists e. split; [done|]. by eapply edit_form_raises. }
  right. exists cls. split; [done|]. cbn zeta.
  destruct (decide (method request = "POST")) as [Hpost|Hpost].
  - right.
    destruct (form_is_valid {| form_class_of := cls; data := Some (POST request);
                               initial := Some (get_initial_data p) |}) eqn:Hvalid.
    + right.
      destruct (has_owner (construct_instance cls (base_fields cls) (POST request)))
        eqn:Hown.
      * left. split; [done|]. split; [done|]. split; [done|].
        by eapply edit_post_valid.
      * right. split; [done|]. split; [done|]. split; [done|].
        by eapply edit_post_refused.
    + left. split; [done|]. split; [done|]. by eapply edit_post_invalid.
  - left. split; [done|]. by eapply edit_not_post.
Qed.

(** ** Which forms the views instantiate *)

Lemma create_form_inits request form_class success_url template_name w u m cls :
  user request = AuthUser u →
  response (get_profile (AuthUser u) w) = Raise ObjectDoesNotExist →
  response (get_profile_model w) = Ok m →
  create_form form_class m = Ok cls →
  let r := create_profile request form_class success_url template_name w in
  ∀ f, Call_form_init f ∈ trace r ↔
       f = {| form_class_of := cls;
              data := if String.eqb (method request) "POST"
                      then Some (POST request) else None;
              initial := None |}.
Proof.
  intros Huser Hnone Hm Hcls r f. subst r.
  destruct (String.eqb (method request) "POST") eqn:Hpost.
  - apply String.eqb_eq in Hpost.
    set (form := {| form_class_of := cls; data := Some (POST request);
                    initial := None |}).
    destruct (form_is_valid form) eqn:Hvalid.
    + rewrite (create_post_valid request form_class success_url template_name w u
                 Huser Hnone m Hm cls Hcls Hpost Hvalid).
      cbn. fold form. unfold create_prelude. split.
      * intros Hin. destruct success_url, form_class, (hasattr_save_m2m form);
          decompose_list_elem_of; congruence.
      * intros ->. do 2 (apply elem_of_cons; right). apply elem_of_app. right.
        apply elem_of_cons. by left.
    + rewrite (create_post_invalid request form_class success_url template_name w u
                 Huser Hnone m Hm cls Hcls Hpost Hvalid).
      cbn. fold form. unfold create_prelude. split.
      * intros Hin. destruct success_url, form_class;
          decompose_list_elem_of; congruence.
      * intros ->. do 2 (apply elem_of_cons; right). apply elem_of_app. right.
        apply elem_of_cons. by left.
  - apply String.eqb_neq in Hpost.
    rewrite (create_not_post request form_class success_url template_name w u
               Huser Hnone m Hm cls Hcls Hpost).
    cbn. unfold create_prelude. split.
    + intros Hin. destruct success_url, form_class;
        decompose_list_elem_of; congruence.
    + intros ->. do 2 (apply elem_of_cons; right). apply elem_of_app. right.
      apply elem_of_cons. by left.
Qed.

Lemma edit_form_inits request form_class success_url template_name w u p cls :
  user request = AuthUser u →
  response (get_profile (AuthUser u) w) = Ok p →
  edit_form form_class p = Ok cls →
  let r := edit_profile request form_class success_url template_name w in
  ∀ f, Call_form_init f ∈ trace r ↔
       f = if String.eqb (method request) "POST"
           then {| form_class_of := cls; data := Some (POST request);
                   initial := Some (get_initial_data p) |}
           else {| form_class_of := cls; data := None; initial := None |}.
Proof.
  intros Huser Hsome Hcls r f. subst r.
  destruct (String.eqb (method request) "POST") eqn:Hpost.
  - apply String.eqb_eq in Hpost.
    set (form := {| form_class_of := cls; data := Some (POST request);
                    initial := Some (get_initial_data p) |}).
    destruct (form_is_valid form) eqn:Hvalid.
    + destruct (has_owner (construct_instance cls (base_fields cls) (POST request)))
        eqn:Hown.
      * rewrite (edit_post_valid request form_class success_url template_name w u
                   Huser p Hsome cls Hcls Hpost Hvalid Hown).
        cbn. fold form. unfold edit_prelude. split.
        -- intros Hin. destruct success_url, form_class;
             decompose_list_elem_of; congruence.
        -- intros ->. apply elem_of_cons; right. apply elem_of_app. right.
           apply elem_of_cons. by left.
      * rewrite (edit_post_refused request form_class success_url template_name w u
                   Huser p Hsome cls Hcls Hpost Hvalid Hown).
        cbn. fold form. unfold edit_prelude. split.
        -- intros Hin. destruct success_url, form_class;
             decompose_list_elem_of; congruence.
        -- intros ->. apply elem_of_cons; right. apply elem_of_app. right.
           apply elem_of_cons. by left.
    + rewrite (edit_post_invalid request form_class success_url template_name w u
                 Huser p Hsome cls Hcls Hpost Hvalid).
      cbn. fold form. unfold edit_prelude. split.
      * intros Hin. destruct success_url, form_class;
          decompose_list_elem_of; congruence.
      * intros ->. apply elem_of_cons; right. apply elem_of_app. right.
        apply elem_of_cons. by left.
  - apply String.eqb_neq in Hpost.
    rewrite (edit_not_post request form_class success_url template_name w u
               Huser p Hsome cls Hcls Hpost).
    cbn. unfold edit_prelude. split.
    + intros Hin. destruct success_url, form_class;
        decompose_list_elem_of; congruence.
    + intros ->. apply elem_of_cons; right. apply elem_of_app. right.
      apply elem_of_cons. by left.
Qed.

(** ** The stored profile after an edit *)

Lemma find_owned_fmap u (g : Profile → Profile) rows :
  (∀ r, owned_by u (g r) = owned_by u r) →
  find (owned_by u) (g <$> rows) = g <$> find (owned_by u) rows.
Proof.
  intros Hg. induction rows as [|r rows IH]; [done|].
  cbn. rewrite Hg. by destruct (owned_by u r).
Qed.

Lemma find_owned_replace u k obj rows p :
  find (owned_by u) rows = Some p →
  pk p = Some k → pk obj = Some k → owned_by u obj = true →
  find (owned_by u) (map (λ r, if has_pk k r then obj else r) rows) = Some obj.
Proof.
  intros Hfind Hpk Hobj Hown. induction rows as [|r rows IH]; [done|].
  cbn in *. destruct (has_pk k r) eqn:Hk.
  - by rewrite Hown.
  - destruct (owned_by u r) eqn:Hr.
    + injection Hfind as ->. unfold has_pk in Hk.
      apply bool_decide_eq_false in Hk. done.
    + by apply IH.
Qed.

Lemma find_owned_app u rows more p :
  find (owned_by u) rows = Some p → find (owned_by u) (rows ++ more) = Some p.
Proof.
  induction rows as [|r rows IH]; [done|].
  cbn. by destruct (owned_by u r).
Qed.

Lemma lookup_profile_after_save u obj rows p :
  lookup_profile rows u = Some p →
  pk obj = pk p → owner obj = owner p →
  ∃ p', lookup_profile (save_row obj rows).1 u = Some p' ∧ pk p' = pk p
        ∧ owner p' = owner p.
Proof.
  intros Hfind Hpk Hown.
  destruct (lookup_profile_Some _ _ _ Hfind) as [Hin Hp].
  assert (owned_by u obj = true) as Hobj.
  { unfold owned_by. apply bool_decide_eq_true. congruence. }
  unfold lookup_profile in *. unfold save_row. rewrite Hpk.
  destruct (pk p) as [k|] eqn:Hk.
  - assert (existsb (has_pk k) rows = true) as ->.
    { apply existsb_exists. exists p. split; [by apply list_elem_of_In|].
      unfold has_pk. by apply bool_decide_eq_true. }
    cbn. exists obj. split; [|by split; congruence].
    by apply (find_owned_replace u k obj rows p).
  - cbn. exists p. split; [|done]. by apply find_owned_app.
Qed.

(** ** The table under the default forms *)

Lemma next_pk_bound (rows : list Profile) r k :
  r ∈ rows → pk r = Some k → k < next_pk rows.
Proof.
  unfold next_pk. intros Hin Hk. apply Nat.lt_succ_r.
  induction rows as [|r' rows IH]; [by apply elem_of_nil in Hin|].
  cbn. apply elem_of_cons in Hin as [->|Hin].
  - rewrite Hk. lia.
  - specialize (IH Hin). destruct (pk r'); lia.
Qed.

Lemma fmap_fixed (g : Profile → Profile) (rows : list Profile) :
  (∀ r, r ∈ rows → g r = r) → g <$> rows = rows.
Proof.
  intros Hg. induction rows as [|r rows IH]; [done|].
  cbn. rewrite Hg by (apply elem_of_cons; by left).
  f_equal. apply IH. intros r' Hr'. apply Hg. apply elem_of_cons. by right.
Qed.

Lemma lookup_map (g : Profile → Profile) (rows : list Profile) i :
  map g rows !! i = g <$> rows !! i.
Proof.
  revert i. induction rows as [|r rows IH]; intros [|i]; cbn; try done.
Qed.

Lemma lookup_fmap_rows (g : Profile → Profile) (rows : list Profile) i :
  (g <$> rows) !! i = g <$> rows !! i.
Proof.
  revert i. induction rows as [|r rows IH]; intros [|i]; cbn; try done.
Qed.

Lemma invalid_form_has_errors form :
  is_Some (data form) → form_is_valid form = false → errors form ≠ ∅.
Proof.
  intros [d Hd]. unfold form_is_valid. rewrite Hd.
  by intros ?%bool_decide_eq_false.
Qed.

(** * The claims *)

(** C1, as amended.  [create_profile] calls the profile-model resolver
    exactly when the request is from a logged-in user whose profile lookup
    raises [ObjectDoesNotExist], whatever the [form_class] argument is; the
    call then comes right after the profile lookup, before any form is
    built.  It is not called when the request is answered earlier: the user
    is not logged in, has a profile, or the lookup fails with another
    exception.  The resolved model is used only when no form class was
    given: [form_for_model] is called only then, and on that model. *)
Theorem create_profile_resolver_call request form_class success_url template_name w :
  let r := create_profile request form_class success_url template_name w in
  (Call_get_profile_model ∈ trace r ↔
     ∃ u, user request = AuthUser u
          ∧ response (get_profile (AuthUser u) w) = Raise ObjectDoesNotExist)
  ∧ (Call_get_profile_model ∈ trace r ↔
       ∃ u rest, trace r = Call_get_profile u :: Call_get_profile_model :: rest)
  ∧ (∀ m, Call_form_for_model m ∈ trace r →
          form_class = None ∧ response (get_profile_model w) = Ok m).
Proof.
  intros r. subst r.
  destruct (create_profile_cases request form_class success_url template_name w)
    as [[Ha ->]|(u & Hu & [(p & Hp & ->)|[(e & He & Hne & ->)|(Hn & m & Hm & Hrest)]])].
  - cbn. split; [|split].
    + split; [by intros ?%elem_of_nil|]. intros (u & ? & _). congruence.
    + split; [by intros ?%elem_of_nil|]. by intros (u & rest & ?).
    + by intros m ?%elem_of_nil.
  - cbn. split; [|split].
    + split; [intros Hin; decompose_list_elem_of; discriminate|].
      intros (u' & Hu' & Hnone). rewrite Hu in Hu'. injection Hu' as <-.
      unfold response in *. cbn in *. congruence.
    + split; [intros Hin; decompose_list_elem_of; discriminate|].
      intros (u' & rest & ?). discriminate.
    + intros m Hin. decompose_list_elem_of; discriminate.
  - cbn. split; [|split].
    + split; [intros Hin; decompose_list_elem_of; discriminate|].
      intros (u' & Hu' & Hnone). rewrite Hu in Hu'. injection Hu' as <-.
      unfold response in *. cbn in *. congruence.
    + split; [intros Hin; decompose_list_elem_of; discriminate|].
      intros (u' & rest & ?). discriminate.
    + intros m Hin. decompose_list_elem_of; discriminate.
  - assert (∃ rest,
              trace (create_profile request form_class success_url template_name w)
              = Call_get_profile u :: Call_get_profile_model :: rest
              ∧ ∀ m', Call_form_for_model m' ∈ rest → form_class = None ∧ m' = m)
      as (rest & Htrace & Hmodel).
    { destruct Hrest as [(e & He & ->)|(cls & Hcls &
        [(_ & ->)|[(_ & _ & ->)|(_ & _ & ->)]])];
        cbn; unfold create_prelude; cbn; eexists; (split; [reflexivity|]);
        intros m' Hin; destruct success_url, form_class;
        try destruct (hasattr_save_m2m _);
        decompose_list_elem_of; by simplify_eq. }
    rewrite Htrace. split; [|split].
    + split; [by eauto|]. intros _. apply elem_of_cons. right. apply elem_of_cons. by left.
    + split; [by eauto|]. intros _. apply elem_of_cons. right. apply elem_of_cons. by left.
    + intros m' Hin. apply elem_of_cons in Hin as [?|Hin]; [discriminate|].
      apply elem_of_cons in Hin as [?|Hin]; [discriminate|].
      destruct (Hmodel m' Hin) as [-> ->]. done.
Qed.

(** C1, as stated, fails: on the sample site, a request of Alice, who has
    no profile, with the form class [bio_form] given, calls the resolver,
    and does so before the form is instantiated. *)
Lemma create_profile_resolver_with_form_class :
  let r := create_profile (Sample.request_of (AuthUser Sample.alice) "GET" ∅)
             (Some Sample.bio_form) None create_profile_template Sample.site in
  Call_get_profile_model ∈ trace r
  ∧ trace r =
      [Call_get_profile Sample.alice;
       Call_get_profile_model;
       Call_reverse "profiles_profile_detail" [("username", "alice")];
       Call_form_init {| form_class_of := Sample.bio_form; data := None;
                         initial := None |};
       Call_render_to_response create_profile_template].
Proof.
  assert (trace (create_profile (Sample.request_of (AuthUser Sample.alice) "GET" ∅)
                   (Some Sample.bio_form) None create_profile_template Sample.site)
          = [Call_get_profile Sample.alice;
             Call_get_profile_model;
             Call_reverse "profiles_profile_detail" [("username", "alice")];
             Call_form_init {| form_class_of := Sample.bio_form; data := None;
                               initial := None |};
             Call_render_to_response create_profile_template]) as Htrace.
  { rewrite (create_not_post
               (Sample.request_of (AuthUser Sample.alice) "GET" ∅)
               (Some Sample.bio_form) None create_profile_template Sample.site
               Sample.alice eq_refl eq_refl Sample.profile_model eq_refl
               Sample.bio_form eq_refl); [reflexivity|discriminate]. }
  cbn zeta. split; [|exact Htrace].
  rewrite Htrace. apply elem_of_cons. right. apply elem_of_cons. by left.
Qed.

Lemma create_profile_resolver_call_witness :
  Call_get_profile_model ∈
    trace (create_profile (Sample.request_of (AuthUser Sample.alice) "POST" Sample.good_data)
             (Some Sample.bio_form) None create_profile_template Sample.site).
Proof.
  refine (proj2 (proj1 (create_profile_resolver_call
           (Sample.request_of (AuthUser Sample.alice) "POST" Sample.good_data)
           (Some Sample.bio_form) None create_profile_template Sample.site)) _).
  exists Sample.alice. split; reflexivity.
Defined.

(** C2.  When the profile lookup of the logged-in user returns a profile,
    [create_profile] answers with a redirect to the edit view, whatever the
    method and the arguments; the site is left as it was, and nothing but
    the lookup and the URL resolution was called, so nothing was saved. *)
Theorem create_profile_existing_profile
    request form_class success_url template_name w u p :
  user request = AuthUser u →
  response (get_profile (AuthUser u) w) = Ok p →
  let r := create_profile request form_class success_url template_name w in
  response r = Ok (HttpResponseRedirect (urlconf w "profiles_edit_profile" []))
  ∧ world_after r = w
  ∧ trace r = [Call_get_profile u; Call_reverse "profiles_edit_profile" []]
  ∧ (∀ o, Call_model_save o ∉ trace r)
  ∧ (∀ f commit, Call_form_save f commit ∉ trace r).
Proof.
  intros Huser Hp r. subst r.
  rewrite (create_has_profile _ _ _ _ _ _ Huser _ Hp). cbn.
  repeat split; intros; intros Hin; decompose_list_elem_of; discriminate.
Qed.

Lemma create_profile_existing_profile_witness :
  let r := create_profile
             (Sample.request_of (AuthUser Sample.bob) "POST" Sample.good_data)
             None None create_profile_template Sample.site in
  response r = Ok (HttpResponseRedirect "/profiles_edit_profile/")
  ∧ world_after r = Sample.site
  ∧ trace r = [Call_get_profile Sample.bob; Call_reverse "profiles_edit_profile" []].
Proof.
  destruct (create_profile_existing_profile
              (Sample.request_of (AuthUser Sample.bob) "POST" Sample.good_data)
              None None create_profile_template Sample.site Sample.bob
              Sample.bob_profile eq_refl eq_refl)
    as (Hresp & Hw & Htrace & _).
  split; [exact Hresp|]. split; [exact Hw|exact Htrace].
Defined.

(** C5.  When the profile lookup of the logged-in user raises
    [ObjectDoesNotExist], [edit_profile] answers with a redirect to the
    create view, whatever the method and the arguments; no form class is
    generated, no form is instantiated, nothing is validated or saved, and
    the site is left as it was. *)
Theorem edit_profile_without_profile
    request form_class success_url template_name w u :
  user request = AuthUser u →
  response (get_profile (AuthUser u) w) = Raise ObjectDoesNotExist →
  let r := edit_profile request form_class success_url template_name w in
  response r = Ok (HttpResponseRedirect (urlconf w "profiles_create_profile" []))
  ∧ world_after r = w
  ∧ trace r = [Call_get_profile u; Call_reverse "profiles_create_profile" []]
  ∧ (∀ p, Call_form_for_instance p ∉ trace r)
  ∧ (∀ f, Call_form_init f ∉ trace r)
  ∧ (∀ f, Call_is_valid f ∉ trace r)
  ∧ (∀ f commit, Call_form_save f commit ∉ trace r).
Proof.
  intros Huser Hp r. subst r.
  rewrite (edit_no_profile _ _ _ _ _ _ Huser Hp). cbn.
  repeat split; intros; intros Hin; decompose_list_elem_of; discriminate.
Qed.

Lemma edit_profile_without_profile_witness :
  let r := edit_profile
             (Sample.request_of (AuthUser Sample.alice) "POST" Sample.good_data)
             None None edit_profile_template Sample.site in
  response r = Ok (HttpResponseRedirect "/profiles_create_profile/")
  ∧ world_after r = Sample.site
  ∧ trace r = [Call_get_profile Sample.alice; Call_reverse "profiles_create_profile" []].
Proof.
  destruct (edit_profile_without_profile
              (Sample.request_of (AuthUser Sample.alice) "POST" Sample.good_data)
              None None edit_profile_template Sample.site Sample.alice
              eq_refl eq_refl)
    as (Hresp & Hw & Htrace & _).
  split; [exact Hresp|]. split; [exact Hw|exact Htrace].
Defined.



Lemma unavailable_iff w :
  profile_setting_unavailable w ↔
    response (get_profile_model w) = Raise SiteProfileNotAvailable.
Proof.
  unfold profile_setting_unavailable, get_profile_model, call. cbn.
  destruct (AUTH_PROFILE_MODULE w) as [name|]; cbn.
  - destruct (installed_models w !! name) as [m|] eqn:Hm; cbn.
    + split; [|done]. intros [?|(name' & [= <-] & ?)]; congruence.
    + split; [done|]. intros _. right. eauto.
  - split; [done|]. intros _. by left.
Qed.

Lemma unavailable_get_profile w u :
  profile_setting_unavailable w →
  response (get_profile (AuthUser u) w) = Raise SiteProfileNotAvailable.
Proof.
  intros Hun%unavailable_iff. by rewrite get_profile_response, Hun.
Qed.

(** C9.  The resolver fails when the setting is unset and when it names no
    installed model, with [SiteProfileNotAvailable] in both cases and with
    no other exception ever.  The views do not catch that exception: on
    such a site every request of a logged-in user to [create_profile] and to
    [edit_profile], and every request to [profile_detail] for an existing
    username, fails with it, whatever the arguments; it is raised by the
    profile lookup, the first call that reads the setting, and the site is
    left as it was. *)
Theorem resolver_failure_propagates w :
  (profile_setting_unavailable w ↔
     response (get_profile_model w) = Raise SiteProfileNotAvailable)
  ∧ (∀ e, response (get_profile_model w) = Raise e → e = SiteProfileNotAvailable)
  ∧ (profile_setting_unavailable w →
     (∀ request form_class success_url template_name u,
        user request = AuthUser u →
        create_profile request form_class success_url template_name w =
          (Raise SiteProfileNotAvailable, w, [Call_get_profile u])
        ∧ edit_profile request form_class success_url template_name w =
            (Raise SiteProfileNotAvailable, w, [Call_get_profile u]))
     ∧ (∀ request name template_name u,
          lookup_user (auth_users w) name = Some u →
          profile_detail request name template_name w =
            (Raise SiteProfileNotAvailable, w,
             [Call_get_object_or_404 name; Call_get_profile u]))).
Proof.
  split; [apply unavailable_iff|]. split; [apply get_profile_model_raises|].
  intros Hun. split.
  - intros request form_class success_url template_name u Huser.
    pose proof (unavailable_get_profile w u Hun) as Hraise. split.
    + by apply (create_lookup_raises _ _ _ _ _ _ Huser _ Hraise).
    + by apply (edit_lookup_raises _ _ _ _ _ _ Huser _ Hraise).
  - intros request name template_name u Hu.
    rewrite profile_detail_run, Hu, (unavailable_get_profile w u Hun).
    by rewrite isinstance_other.
Qed.

Lemma resolver_failure_propagates_witness :
  create_profile (Sample.request_of (AuthUser Sample.alice) "GET" ∅)
    (Some Sample.bio_form) None create_profile_template Sample.site_unset
  = (Raise SiteProfileNotAvailable, Sample.site_unset,
     [Call_get_profile Sample.alice])
  ∧ edit_profile (Sample.request_of (AuthUser Sample.bob) "POST" Sample.good_data)
      None None edit_profile_template Sample.site_unknown
    = (Raise SiteProfileNotAvailable, Sample.site_unknown,
       [Call_get_profile Sample.bob])
  ∧ profile_detail (Sample.request_of AnonymousUser "GET" ∅) "bob"
      profile_detail_template Sample.site_unset
    = (Raise SiteProfileNotAvailable, Sample.site_unset,
       [Call_get_object_or_404 "bob"; Call_get_profile Sample.bob]).
Proof.
  split; [|split].
  - exact (proj1 (proj1 (proj2 (proj2 (resolver_failure_propagates Sample.site_unset))
             (or_introl eq_refl))
             (Sample.request_of (AuthUser Sample.alice) "GET" ∅)
             (Some Sample.bio_form) None create_profile_template Sample.alice
             eq_refl)).
  - exact (proj2 (proj1 (proj2 (proj2 (resolver_failure_propagates Sample.site_unknown))
             (or_intror (ex_intro _ "app.Missing" (conj eq_refl eq_refl))))
             (Sample.request_of (AuthUser Sample.bob) "POST" Sample.good_data)
             None None edit_profile_template Sample.bob
             eq_refl)).
  - exact (proj2 (proj2 (proj2 (resolver_failure_propagates Sample.site_unset))
             (or_introl eq_refl))
             (Sample.request_of AnonymousUser "GET" ∅) "bob"
             profile_detail_template Sample.bob eq_refl).
Defined.

(** C3.  A valid POST to [create_profile] by a user without a profile, on a
    site whose profile model resolves: the one object that is saved is the
    object the form built with its [user] set to the requesting user, and
    the answer is a redirect to [success_url], which is the detail view of
    that username when the argument was not given.  The table afterwards is
    the table with that object stored, and, with the default form or a form
    class without [save_m2m], the user has a stored profile. *)
Theorem create_profile_valid_post
    request form_class success_url template_name w u m cls :
  user request = AuthUser u →
  lookup_profile (profile_rows w) u = None →
  response (get_profile_model w) = Ok m →
  create_form form_class m = Ok cls →
  method request = "POST" →
  let form := {| form_class_of := cls; data := Some (POST request); initial := None |} in
  form_is_valid form = true →
  let built := construct_instance cls (base_fields cls) (POST request) in
  let obj := set_user built (AuthUser u) in
  let stored := save_row obj (profile_rows w) in
  let r := create_profile request form_class success_url template_name w in
  response r =
    Ok (HttpResponseRedirect
          match success_url with
          | Some url => url
          | None => urlconf w "profiles_profile_detail" [("username", username u)]
          end)
  ∧ (∀ o, Call_model_save o ∈ trace r ↔ o = obj)
  ∧ owner obj = Some (VInt (user_id u))
  ∧ stored.2 ∈ stored.1
  ∧ owner stored.2 = Some (VInt (user_id u))
  ∧ profile_rows (world_after r) = rows_after_m2m form stored.2 stored.1
  ∧ (form_class = None ∨ save_m2m_data cls = None →
     is_Some (lookup_profile (profile_rows (world_after r)) u)).
Proof.
  intros Huser Hnone Hm Hcls Hpost form Hvalid built obj stored r.
  pose proof (create_post_valid request form_class success_url template_name w u
                Huser (get_profile_missing w u m Hm Hnone) m Hm cls Hcls Hpost Hvalid)
    as Hrun.
  fold form built obj stored in Hrun. subst r. rewrite Hrun. cbn.
  destruct (save_row_stored obj (profile_rows w)) as [Hin Hown].
  fold stored in Hin, Hown.
  pose proof (owner_set_user built u) as Hobj. fold obj in Hobj.
  rewrite Hobj in Hown.
  split; [by destruct success_url|]. split.
  { intros o. unfold create_prelude. split.
    - intros Ho. destruct success_url, form_class, (hasattr_save_m2m form);
        decompose_list_elem_of; congruence.
    - intros ->. do 2 (apply elem_of_cons; right). apply elem_of_app. right.
      do 3 (apply elem_of_cons; right). apply elem_of_cons. by left. }
  split; [done|]. split; [done|]. split; [done|]. split; [done|].
  intros Hdefault.
  assert (default ∅ (m2m_values form) !! "user" = None) as Hvals.
  { destruct Hdefault as [->|Hno].
    - by apply (create_default_m2m_no_user m).
    - unfold m2m_values. cbn. rewrite Hno. done. }
  destruct (rows_after_m2m_owner form stored.2 stored.1 stored.2 Hvals Hin)
    as (row' & Hin' & Hown').
  apply (lookup_profile_is_Some _ _ row' Hin'). congruence.
Qed.

Lemma create_profile_valid_post_witness :
  let r := create_profile
             (Sample.request_of (AuthUser Sample.alice) "POST" Sample.good_data)
             None None create_profile_template Sample.site in
  response r = Ok (HttpResponseRedirect "/profiles_profile_detail/alice")
  ∧ is_Some (lookup_profile (profile_rows (world_after r)) Sample.alice).
Proof.
  destruct (create_profile_valid_post
              (Sample.request_of (AuthUser Sample.alice) "POST" Sample.good_data)
              None None create_profile_template Sample.site Sample.alice
              Sample.profile_model Sample.create_default
              eq_refl eq_refl eq_refl eq_refl eq_refl eq_refl)
    as (Hresp & _ & _ & _ & _ & _ & Hstored).
  split; [exact Hresp|]. apply Hstored. by left.
Defined.

(** C4.  An invalid POST that reaches validation (in [create_profile]: the
    user has no profile and the form class is there; in [edit_profile]: the
    profile lookup returns the user's profile) is answered by rendering the
    template, status 200, with the bound form in the context; that form has
    errors; nothing is saved, the site is left as it was, and no exception
    is raised.  A required field that is submitted empty or not at all
    makes the form invalid. *)
Theorem invalid_post_rerenders request form_class success_url template_name w u :
  user request = AuthUser u →
  method request = "POST" →
  (∀ m cls,
     lookup_profile (profile_rows w) u = None →
     response (get_profile_model w) = Ok m →
     create_form form_class m = Ok cls →
     let form := {| form_class_of := cls; data := Some (POST request);
                    initial := None |} in
     form_is_valid form = false →
     let r := create_profile request form_class success_url template_name w in
     let resp := Rendered template_name [("form", CForm form)] in
     response r = Ok resp
     ∧ status_code resp = 200
     ∧ errors form ≠ ∅
     ∧ world_after r = w
     ∧ (∀ f commit, Call_form_save f commit ∉ trace r)
     ∧ (∀ o, Call_model_save o ∉ trace r))
  ∧ (∀ p cls,
       response (get_profile (AuthUser u) w) = Ok p →
       edit_form form_class p = Ok cls →
       let form := {| form_class_of := cls; data := Some (POST request);
                      initial := Some (get_initial_data p) |} in
       form_is_valid form = false →
       let r := edit_profile request form_class success_url template_name w in
       let resp := Rendered template_name
                     [("form", CForm form); ("profile", CProfile p)] in
       response r = Ok resp
       ∧ status_code resp = 200
       ∧ errors form ≠ ∅
       ∧ world_after r = w
       ∧ (∀ f commit, Call_form_save f commit ∉ trace r)
       ∧ (∀ o, Call_model_save o ∉ trace r))
  ∧ (∀ cls name ff ini,
       full_clean cls = field_errors →
       base_fields cls !! name = Some ff →
       required ff = true →
       is_empty (POST request !! name) = true →
       form_is_valid {| form_class_of := cls; data := Some (POST request);
                        initial := ini |} = false).
Proof.
  intros Huser Hpost. split; [|split].
  - intros m cls Hnone Hm Hcls form Hinv r resp. subst r.
    rewrite (create_post_invalid request form_class success_url template_name w u
               Huser (get_profile_missing w u m Hm Hnone) m Hm cls Hcls Hpost Hinv).
    cbn. fold form. split; [done|]. split; [done|].
    split; [by apply invalid_form_has_errors; [eexists|]|]. split; [done|].
    unfold create_prelude.
    split; intros; intros Hin; destruct success_url, form_class;
      decompose_list_elem_of; congruence.
  - intros p cls Hsome Hcls form Hinv r resp. subst r.
    rewrite (edit_post_invalid request form_class success_url template_name w u
               Huser p Hsome cls Hcls Hpost Hinv).
    cbn. fold form. split; [done|]. split; [done|].
    split; [by apply invalid_form_has_errors; [eexists|]|]. split; [done|].
    unfold edit_prelude.
    split; intros; intros Hin; destruct success_url, form_class;
      decompose_list_elem_of; congruence.
  - intros cls name ff ini Hclean Hff Hreq Hempty.
    unfold form_is_valid, errors. cbn. rewrite Hclean.
    apply bool_decide_eq_false. intros Hno.
    assert (field_errors (base_fields cls) (POST request) !! name
            = Some ["This field is required."]) as Herr.
    { unfold field_errors. rewrite map_lookup_imap, Hff. cbn.
      unfold field_clean. by rewrite Hempty, Hreq. }
    rewrite Hno in Herr. by rewrite lookup_empty in Herr.
Qed.

Lemma invalid_post_rerenders_witness :
  (let form := {| form_class_of := Sample.create_default;
                  data := Some Sample.bad_data; initial := None |} in
   let r := create_profile
              (Sample.request_of (AuthUser Sample.alice) "POST" Sample.bad_data)
              None None create_profile_template Sample.site in
   response r = Ok (Rendered create_profile_template [("form", CForm form)])
   ∧ errors form ≠ ∅ ∧ world_after r = Sample.site)
  ∧ (let form := {| form_class_of := Sample.edit_default;
                    data := Some Sample.bad_data;
                    initial := Some (get_initial_data Sample.bob_profile) |} in
     let r := edit_profile
                (Sample.request_of (AuthUser Sample.bob) "POST" Sample.bad_data)
                None None edit_profile_template Sample.site in
     response r = Ok (Rendered edit_profile_template
                        [("form", CForm form); ("profile", CProfile Sample.bob_profile)])
     ∧ errors form ≠ ∅ ∧ world_after r = Sample.site).
Proof.
  assert (form_is_valid {| form_class_of := Sample.create_default;
                           data := Some Sample.bad_data; initial := None |} = false)
    as Hcreate.
  { apply (proj2 (proj2 (invalid_post_rerenders
             (Sample.request_of (AuthUser Sample.alice) "POST" Sample.bad_data)
             None None create_profile_template Sample.site Sample.alice
             eq_refl eq_refl))
             Sample.create_default "bio"
             {| required := true; empty_value := VStr "";
                to_python := convert (CharField "bio" 20 false);
                field_initial := None |} None eq_refl eq_refl eq_refl eq_refl). }
  assert (form_is_valid {| form_class_of := Sample.edit_default;
                           data := Some Sample.bad_data;
                           initial := Some (get_initial_data Sample.bob_profile) |}
          = false) as Hedit.
  { apply (proj2 (proj2 (invalid_post_rerenders
             (Sample.request_of (AuthUser Sample.bob) "POST" Sample.bad_data)
             None None edit_profile_template Sample.site Sample.bob
             eq_refl eq_refl))
             Sample.edit_default "bio"
             {| required := true; empty_value := VStr "";
                to_python := convert (CharField "bio" 20 false);
                field_initial := Some (VStr "hello") |}
             (Some (get_initial_data Sample.bob_profile))
             eq_refl eq_refl eq_refl eq_refl). }
  split.
  - destruct (proj1 (invalid_post_rerenders
                (Sample.request_of (AuthUser Sample.alice) "POST" Sample.bad_data)
                None None create_profile_template Sample.site Sample.alice
                eq_refl eq_refl)
                Sample.profile_model Sample.create_default
                eq_refl eq_refl eq_refl Hcreate)
      as (Hresp & _ & Herr & Hw & _).
    split; [exact Hresp|]. by split.
  - destruct (proj1 (proj2 (invalid_post_rerenders
                (Sample.request_of (AuthUser Sample.bob) "POST" Sample.bad_data)
                None None edit_profile_template Sample.site Sample.bob
                eq_refl eq_refl))
                Sample.bob_profile Sample.edit_default eq_refl eq_refl Hedit)
      as (Hresp & _ & Herr & Hw & _).
    split; [exact Hresp|]. by split.
Defined.

(** ** The fields of the default forms *)

Lemma in_form_exclude f key :
  in_form [key] f = true ↔ in_form [] f = true ∧ f_name f ≠ key.
Proof.
  unfold in_form. rewrite !andb_true_iff, !bool_decide_eq_true.
  rewrite list_elem_of_singleton. split.
  - intros [[? ?] ?]. repeat split; try done. apply not_elem_of_nil.
  - intros [[[? _] ?] ?]. done.
Qed.

Lemma elem_of_form_field_names opts name :
  name ∈ form_field_names opts ↔
    ∃ f, f ∈ fields opts ++ many_to_many opts
         ∧ f_name f = name ∧ editable f = true ∧ kind f ≠ Auto.
Proof.
  unfold form_field_names. rewrite list_elem_of_fmap. split.
  - intros (f & -> & [Hin Hf]%list_elem_of_filter). exists f.
    unfold in_form in Hin. rewrite !andb_true_iff in Hin.
    destruct Hin as [[Hed _] Hkind]. repeat split; try done.
    intros Hauto. by rewrite Hauto in Hkind.
  - intros (f & Hf & <- & Hed & Hkind). exists f. split; [done|].
    apply list_elem_of_filter. split; [|done].
    unfold in_form. rewrite Hed. cbn.
    rewrite bool_decide_eq_true_2 by apply not_elem_of_nil.
    by destruct (kind f).
Qed.

Lemma dom_fields_for_model_exclude opts inst key :
  dom (fields_for_model opts inst [key]) =@{gset string}
    list_to_set (form_field_names opts) ∖ {[key]}.
Proof.
  rewrite dom_fields_for_model. unfold form_field_names.
  apply set_eq. intros n.
  rewrite elem_of_difference, !elem_of_list_to_set, !list_elem_of_fmap,
    elem_of_singleton.
  split.
  - intros (f & -> & [[Hin Hne]%in_form_exclude Hf]%list_elem_of_filter).
    split; [|done]. exists f. split; [done|]. by apply list_elem_of_filter.
  - intros [(f & -> & [Hin Hf]%list_elem_of_filter) Hne].
    exists f. split; [done|]. apply list_elem_of_filter. split; [|done].
    by apply in_form_exclude.
Qed.

Lemma get_profile_form_run u w :
  get_profile_form u w =
    match lookup_profile (profile_rows w) u with
    | Some p =>
        (Ok {| meta_model := p; meta_exclude := ["user"];
               declared_fields := fields_for_model (_meta (model p)) None ["user"] |},
         w, [Call_user_profile u])
    | None => (Raise ObjectDoesNotExist, w, [Call_user_profile u])
    end.
Proof.
  unfold get_profile_form, user_profile, call. cbn.
  by destruct (lookup_profile (profile_rows w) u).
Qed.

(** C6, as amended.  For a profile model whose [user] field is editable,
    every form that [create_profile] and [edit_profile] instantiate when no
    form class was given has exactly the fields of the model, scalar and
    many-to-many, for which the form library makes a form field, except
    [user]: these are the editable fields other than the automatic primary
    key.  The form class of [get_profile_form] has the same field set. *)
Theorem default_form_fields m :
  let expected : gset string :=
    list_to_set (form_field_names (_meta m)) ∖ {["user"]} in
  (∀ request success_url template_name w u,
     user_editable m = true →
     user request = AuthUser u →
     lookup_profile (profile_rows w) u = None →
     response (get_profile_model w) = Ok m →
     let r := create_profile request None success_url template_name w in
     (∃ f, Call_form_init f ∈ trace r)
     ∧ (∀ f, Call_form_init f ∈ trace r →
             dom (base_fields (form_class_of f)) = expected))
  ∧ (∀ request success_url template_name w u p,
       user_editable m = true →
       user request = AuthUser u →
       response (get_profile (AuthUser u) w) = Ok p →
       model p = m →
       let r := edit_profile request None success_url template_name w in
       (∃ f, Call_form_init f ∈ trace r)
       ∧ (∀ f, Call_form_init f ∈ trace r →
               dom (base_fields (form_class_of f)) = expected))
  ∧ (∀ w u p,
       lookup_profile (profile_rows w) u = Some p →
       model p = m →
       ∃ cls, response (get_profile_form u w) = Ok cls
              ∧ dom (declared_fields cls) = expected)
  ∧ (∀ name, name ∈ expected ↔
       name ≠ "user"
       ∧ ∃ f, f ∈ fields (_meta m) ++ many_to_many (_meta m)
              ∧ f_name f = name ∧ editable f = true ∧ kind f ≠ Auto).
Proof.
  intros expected. split; [|split; [|split]].
  - intros request success_url template_name w u Hfield Huser Hnone Hm r.
    destruct (create_default_exists m (user_in_form_fields m Hfield)) as [cls Hcls].
    pose proof (create_form_inits request None success_url template_name w u m cls
                  Huser (get_profile_missing w u m Hm Hnone) Hm Hcls) as Hinits.
    cbn zeta in Hinits. fold r in Hinits. split.
    + eexists. by apply Hinits.
    + intros f ->%Hinits. cbn. by apply create_default_dom.
  - intros request success_url template_name w u p Hfield Huser Hsome <- r.
    destruct (edit_default_exists p (user_in_form_fields _ Hfield)) as [cls Hcls].
    pose proof (edit_form_inits request None success_url template_name w u p cls
                  Huser Hsome Hcls) as Hinits.
    cbn zeta in Hinits. fold r in Hinits. split.
    + eexists. by apply Hinits.
    + intros f ->%Hinits.
      destruct (String.eqb (method request) "POST"); cbn;
        by apply edit_default_dom.
  - intros w u p Hsome <-. rewrite get_profile_form_run, Hsome. cbn.
    eexists. split; [done|]. cbn. apply dom_fields_for_model_exclude.
  - intros name. subst expected.
    rewrite elem_of_difference, elem_of_list_to_set, elem_of_singleton,
      elem_of_form_field_names.
    tauto.
Qed.

(** C6, as stated, fails: the model of the sample site has the fields [id],
    [user], [bio] and [tags]; the default form that [create_profile] renders
    for Alice has the fields [bio] and [tags] only, so the [id] is excluded
    as well. *)
Lemma default_form_omits_primary_key :
  let r := create_profile (Sample.request_of (AuthUser Sample.alice) "GET" ∅)
             None None create_profile_template Sample.site in
  let form := {| form_class_of := Sample.create_default; data := None;
                 initial := None |} in
  response r = Ok (Rendered create_profile_template [("form", CForm form)])
  ∧ field_names (_meta Sample.profile_model) = ["id"; "user"; "bio"; "tags"]
  ∧ dom (base_fields (form_class_of form)) =@{gset string} {["bio"; "tags"]}
  ∧ dom (base_fields (form_class_of form)) ≠@{gset string}
      list_to_set (field_names (_meta Sample.profile_model)) ∖ {["user"]}.
Proof.
  assert (dom (base_fields Sample.create_default) =@{gset string} {["bio"; "tags"]})
    as Hdom by reflexivity.
  cbn zeta. split; [|split; [done|split; [exact Hdom|]]].
  - rewrite (create_not_post
               (Sample.request_of (AuthUser Sample.alice) "GET" ∅)
               None None create_profile_template Sample.site
               Sample.alice eq_refl eq_refl Sample.profile_model eq_refl
               Sample.create_default eq_refl); [reflexivity|discriminate].
  - cbn [form_class_of]. rewrite Hdom. intros Heq.
    assert ("id" ∈@{gset string} {["bio"; "tags"]}) as Hin.
    { rewrite Heq. apply elem_of_difference. split.
      - apply elem_of_list_to_set. apply elem_of_cons. by left.
      - by intros ?%elem_of_singleton. }
    apply elem_of_union in Hin as [Hin%elem_of_singleton|Hin%elem_of_singleton];
      discriminate.
Qed.

Lemma default_form_fields_witness :
  let expected : gset string := {["bio"; "tags"]} in
  (∀ f, Call_form_init f ∈
          trace (create_profile
                   (Sample.request_of (AuthUser Sample.alice) "POST" Sample.good_data)
                   None None create_profile_template Sample.site) →
        dom (base_fields (form_class_of f)) = expected)
  ∧ (∀ f, Call_form_init f ∈
            trace (edit_profile
                     (Sample.request_of (AuthUser Sample.bob) "GET" ∅)
                     None None edit_profile_template Sample.site) →
          dom (base_fields (form_class_of f)) = expected).
Proof.
  split.
  - intros f Hf.
    rewrite (proj2 (proj1 (default_form_fields Sample.profile_model)
               (Sample.request_of (AuthUser Sample.alice) "POST" Sample.good_data)
               None create_profile_template Sample.site Sample.alice
               eq_refl eq_refl eq_refl eq_refl) f Hf).
    reflexivity.
  - intros f Hf.
    rewrite (proj2 (proj1 (proj2 (default_form_fields Sample.profile_model))
               (Sample.request_of (AuthUser Sample.bob) "GET" ∅)
               None edit_profile_template Sample.site Sample.bob Sample.bob_profile
               eq_refl eq_refl eq_refl eq_refl) f Hf).
    reflexivity.
Defined.

(** ** The initial data of [edit_profile] *)

Lemma edit_default_field_initial p cls name ff :
  edit_form None p = Ok cls →
  base_fields cls !! name = Some ff →
  ∃ f, f ∈ fields (_meta (model p)) ++ many_to_many (_meta (model p))
       ∧ f_name f = name
       ∧ field_initial ff = Some (value_from_object f p).
Proof.
  intros (Hbf & _)%del_item_Ok. rewrite Hbf.
  intros [_ Hff]%lookup_delete_Some.
  unfold form_for_instance_class in Hff. cbn in Hff.
  apply fields_for_model_lookup in Hff as (f & Hf & Hname & _ & ->).
  exists f. done.
Qed.

(** C7, as amended.  For a user with a profile, [edit_profile] instantiates
    one form.  When the method is not POST it is [form_class()], without
    data and without the argument [initial], and it is the form that is
    rendered; with the default form class its fields nevertheless display
    the values of the profile, because [form_for_instance] made them the
    initial values of the fields of the class; with a form class of the
    caller they display what that class gives.  When the method is POST it
    is [form_class(request.POST, initial=...)] with the dictionary of
    [get_initial_data], whose keys are the names of the scalar and
    many-to-many fields of the profile's model, each with a value read off
    the profile. *)
Theorem edit_profile_initial_data
    request form_class success_url template_name w u p cls :
  user request = AuthUser u →
  response (get_profile (AuthUser u) w) = Ok p →
  edit_form form_class p = Ok cls →
  let r := edit_profile request form_class success_url template_name w in
  let unbound := {| form_class_of := cls; data := None; initial := None |} in
  let bound := {| form_class_of := cls; data := Some (POST request);
                  initial := Some (get_initial_data p) |} in
  let opts := _meta (model p) in
  (method request ≠ "POST" →
     response r = Ok (Rendered template_name
                        [("form", CForm unbound); ("profile", CProfile p)])
     ∧ (∀ f, Call_form_init f ∈ trace r ↔ f = unbound)
     ∧ (∀ name, bound_field_data unbound name =
                  base_fields cls !! name ≫= field_initial)
     ∧ (form_class = None →
        ∀ name, name ∈ dom (base_fields cls) →
          ∃ f, f ∈ fields opts ++ many_to_many opts
               ∧ f_name f = name
               ∧ bound_field_data unbound name = Some (value_from_object f p)))
  ∧ (method request = "POST" → ∀ f, Call_form_init f ∈ trace r ↔ f = bound)
  ∧ (∀ name v, get_initial_data p !! name = Some v →
       ∃ f, f ∈ fields opts ++ many_to_many opts
            ∧ f_name f = name
            ∧ v = match kind f with
                  | Auto => match pk p with Some k => VInt k | None => VNone end
                  | ManyToMany => default (VList []) (attrs p !! name)
                  | Relation | Scalar => default VNone (attrs p !! name)
                  end)
  ∧ (NoDup (field_names opts) →
     ∀ f, f ∈ fields opts ++ many_to_many opts →
          get_initial_data p !! f_name f = Some (value_from_object f p))
  ∧ dom (get_initial_data p) = list_to_set (field_names opts).
Proof.
  intros Huser Hsome Hcls r unbound bound opts.
  pose proof (edit_form_inits request form_class success_url template_name w u p cls
                Huser Hsome Hcls) as Hinits.
  cbn zeta in Hinits. fold r in Hinits.
  split; [|split; [|split; [|split]]].
  - intros Hm. split; [|split; [|split]].
    + subst r. by rewrite (edit_not_post request form_class success_url
                             template_name w u Huser p Hsome cls Hcls Hm).
    + intros f. rewrite Hinits. apply String.eqb_neq in Hm. by rewrite Hm.
    + intros name. unfold bound_field_data. cbn. by rewrite lookup_empty.
    + intros -> name [ff Hff]%elem_of_dom.
      destruct (edit_default_field_initial p cls name ff Hcls Hff)
        as (f & Hf & Hname & Hini).
      exists f. split; [done|]. split; [done|].
      unfold bound_field_data. cbn. rewrite lookup_empty, Hff. done.
  - intros Hm f. rewrite Hinits. apply String.eqb_eq in Hm. by rewrite Hm.
  - intros name v (f & Hf & <- & ->)%get_initial_data_lookup_Some.
    exists f. split; [done|]. split; [done|].
    unfold value_from_object. by destruct (kind f).
  - intros Hnd f Hf. by apply get_initial_data_lookup.
  - apply get_initial_data_dom.
Qed.

(** C7, as stated, fails for the default form: on the sample site, Bob's
    GET is answered with a form that was given no initial data, and whose
    field [bio] nevertheless displays the text of Bob's profile. *)
Lemma edit_profile_get_prepopulated :
  let r := edit_profile (Sample.request_of (AuthUser Sample.bob) "GET" ∅)
             None None edit_profile_template Sample.site in
  let form := {| form_class_of := Sample.edit_default; data := None;
                 initial := None |} in
  response r = Ok (Rendered edit_profile_template
                     [("form", CForm form); ("profile", CProfile Sample.bob_profile)])
  ∧ attrs Sample.bob_profile !! "bio" = Some (VStr "hello")
  ∧ bound_field_data form "bio" = Some (VStr "hello")
  ∧ bound_field_data form "tags" = Some (VList []).
Proof.
  cbn zeta. split; [|split; [|split]]; [|reflexivity..].
  rewrite (edit_not_post
             (Sample.request_of (AuthUser Sample.bob) "GET" ∅)
             None None edit_profile_template Sample.site
             Sample.bob eq_refl Sample.bob_profile eq_refl
             Sample.edit_default eq_refl); [reflexivity|discriminate].
Qed.

Lemma edit_profile_initial_data_witness :
  response (edit_profile (Sample.request_of (AuthUser Sample.bob) "GET" ∅)
              None None edit_profile_template Sample.site)
  = Ok (Rendered edit_profile_template
          [("form", CForm {| form_class_of := Sample.edit_default;
                             data := None; initial := None |});
           ("profile", CProfile Sample.bob_profile)])
  ∧ Call_form_init {| form_class_of := Sample.edit_default;
                      data := Some Sample.good_data;
                      initial := Some (get_initial_data Sample.bob_profile) |}
    ∈ trace (edit_profile
               (Sample.request_of (AuthUser Sample.bob) "POST" Sample.good_data)
               None None edit_profile_template Sample.site)
  ∧ get_initial_data Sample.bob_profile !! "tags" = Some (VList [])
  ∧ get_initial_data Sample.bob_profile =
      {[ "id" := VInt 1; "user" := VInt 2; "bio" := VStr "hello";
         "tags" := VList [] ]}.
Proof.
  assert ("GET" ≠ "POST") as Hget by discriminate.
  assert (NoDup (field_names (_meta (model Sample.bob_profile)))) as Hnd.
  { apply (bool_decide_unpack _). reflexivity. }
  split; [|split; [|split]].
  - exact (proj1 (proj1 (edit_profile_initial_data
             (Sample.request_of (AuthUser Sample.bob) "GET" ∅)
             None None edit_profile_template Sample.site Sample.bob
             Sample.bob_profile Sample.edit_default eq_refl eq_refl eq_refl) Hget)).
  - exact (proj2 (proj1 (proj2 (edit_profile_initial_data
             (Sample.request_of (AuthUser Sample.bob) "POST" Sample.good_data)
             None None edit_profile_template Sample.site Sample.bob
             Sample.bob_profile Sample.edit_default eq_refl eq_refl eq_refl))
             eq_refl _) eq_refl).
  - refine (proj1 (proj2 (proj2 (proj2 (edit_profile_initial_data
             (Sample.request_of (AuthUser Sample.bob) "GET" ∅)
             None None edit_profile_template Sample.site Sample.bob
             Sample.bob_profile Sample.edit_default eq_refl eq_refl eq_refl))))
             Hnd (ManyToManyField "tags") _).
    do 3 (apply elem_of_cons; right). apply elem_of_cons. by left.
  - reflexivity.
Defined.

(** ** The stored profile after an edit *)

(** C10, as amended.  A valid POST to [edit_profile] by a user with a
    profile: the view calls [form.save()], and does not call [save_m2m]; the
    one object that is saved is the object the form built, on which the view
    has set nothing.  When that object has a user, it is stored and the
    answer is a redirect to [success_url]; when it has none, the save fails
    with [IntegrityError] and the site is left as it was.  With the default
    form the object is the user's profile with its primary key and its
    [user] as before, also when the submitted data carry a [user]; the
    request succeeds, and the user's stored profile afterwards is that
    record, still owned by the user. *)
Theorem edit_profile_valid_post
    request form_class success_url template_name w u p cls :
  user request = AuthUser u →
  response (get_profile (AuthUser u) w) = Ok p →
  edit_form form_class p = Ok cls →
  method request = "POST" →
  let form := {| form_class_of := cls; data := Some (POST request);
                 initial := Some (get_initial_data p) |} in
  form_is_valid form = true →
  let obj := construct_instance cls (base_fields cls) (POST request) in
  let stored := save_row obj (profile_rows w) in
  let r := edit_profile request form_class success_url template_name w in
  let target :=
    match success_url with
    | Some url => url
    | None => urlconf w "profiles_profile_detail" [("username", username u)]
    end in
  Call_form_save form true ∈ trace r
  ∧ (∀ f, Call_save_m2m f ∉ trace r)
  ∧ (∀ o, Call_model_save o ∈ trace r ↔ o = obj)
  ∧ (has_owner obj = true →
     response r = Ok (HttpResponseRedirect target)
     ∧ profile_rows (world_after r) = rows_after_m2m form stored.2 stored.1)
  ∧ (has_owner obj = false →
     response r = Raise IntegrityError ∧ world_after r = w)
  ∧ (form_class = None →
     pk obj = pk p
     ∧ owner obj = owner p
     ∧ owner obj = Some (VInt (user_id u))
     ∧ response r = Ok (HttpResponseRedirect target)
     ∧ ∃ p', lookup_profile (profile_rows (world_after r)) u = Some p'
             ∧ pk p' = pk p ∧ owner p' = owner p).
Proof.
  intros Huser Hsome Hcls Hpost form Hvalid obj stored r target.
  assert (trace r = edit_prelude form_class success_url u p
                    ++ [Call_form_init form; Call_is_valid form;
                        Call_form_save form true; Call_model_save obj]) as Htrace.
  { subst r. destruct (has_owner obj) eqn:Hown.
    - by rewrite (edit_post_valid request form_class success_url template_name w u
                    Huser p Hsome cls Hcls Hpost Hvalid Hown).
    - by rewrite (edit_post_refused request form_class success_url template_name w u
                    Huser p Hsome cls Hcls Hpost Hvalid Hown). }
  assert (has_owner obj = true →
          response r = Ok (HttpResponseRedirect target)
          ∧ profile_rows (world_after r) = rows_after_m2m form stored.2 stored.1)
    as Hstored.
  { intros Hown. subst r.
    rewrite (edit_post_valid request form_class success_url template_name w u
               Huser p Hsome cls Hcls Hpost Hvalid Hown).
    cbn. split; [|done]. subst target. by destruct success_url. }
  rewrite Htrace. unfold edit_prelude. split.
  { apply elem_of_cons; right. apply elem_of_app. right.
    do 2 (apply elem_of_cons; right). apply elem_of_cons. by left. }
  split.
  { intros f Hin. destruct success_url, form_class;
      decompose_list_elem_of; congruence. }
  split.
  { intros o. split.
    - intros Ho. destruct success_url, form_class;
        decompose_list_elem_of; congruence.
    - intros ->. apply elem_of_cons; right. apply elem_of_app. right.
      do 3 (apply elem_of_cons; right). apply elem_of_cons. by left. }
  split; [done|]. split.
  { intros Hown. subst r.
    by rewrite (edit_post_refused request form_class success_url template_name w u
                  Huser p Hsome cls Hcls Hpost Hvalid Hown). }
  intros ->.
  destruct (get_profile_Ok _ _ _ Hsome) as [Hrow _].
  destruct (lookup_profile_Some _ _ _ Hrow) as [_ Hp].
  destruct (edit_default_object p cls (POST request) Hcls) as [Hpk Hown].
  fold obj in Hpk, Hown.
  assert (has_owner obj = true) as Hhas.
  { apply (has_owner_owned obj u). congruence. }
  destruct (Hstored Hhas) as [Hresp Hrows].
  split; [done|]. split; [done|]. split; [congruence|]. split; [done|].
  destruct (lookup_profile_after_save u obj (profile_rows w) p Hrow Hpk Hown)
    as (p1 & Hfind & Hpk1 & Hown1).
  fold stored in Hfind. rewrite Hrows. unfold rows_after_m2m.
  pose proof (edit_default_m2m_no_user p cls (Some (POST request))
                (Some (get_initial_data p)) Hcls) as Hvals.
  fold form in Hvals.
  destruct (m2m_values form) as [vals|]; [|by eauto].
  cbn in Hvals. unfold lookup_profile in *.
  rewrite (find_owned_fmap u (write_row vals stored.2) stored.1).
  - rewrite Hfind. cbn. eexists. split; [done|]. split.
    + unfold write_row. by case_bool_decide.
    + by rewrite owner_write_row.
  - intros row. unfold owned_by. by rewrite owner_write_row.
Qed.

(** C10, as stated, fails for a form class of the caller that keeps the
    field [user]: on the sample site Bob, user 2, posts data that name
    user 1; the edit succeeds, and Bob's profile, the row with primary
    key 1, is afterwards owned by user 1. *)
Lemma edit_profile_owner_changed :
  let r := edit_profile
             (Sample.request_of (AuthUser Sample.bob) "POST" Sample.takeover_data)
             (Some Sample.keep_user_form) None edit_profile_template Sample.site in
  lookup_profile (profile_rows Sample.site) Sample.bob = Some Sample.bob_profile
  ∧ pk Sample.bob_profile = Some 1
  ∧ owner Sample.bob_profile = Some (VInt 2)
  ∧ response r = Ok (HttpResponseRedirect "/profiles_profile_detail/bob")
  ∧ (∀ f, Call_save_m2m f ∉ trace r)
  ∧ ∃ row, profile_rows (world_after r) = [row]
           ∧ pk row = Some 1 ∧ owner row = Some (VInt 1).
Proof.
  cbn zeta.
  rewrite (edit_post_valid
             (Sample.request_of (AuthUser Sample.bob) "POST" Sample.takeover_data)
             (Some Sample.keep_user_form) None edit_profile_template Sample.site
             Sample.bob eq_refl Sample.bob_profile eq_refl
             Sample.keep_user_form eq_refl eq_refl eq_refl eq_refl).
  split; [reflexivity|]. split; [reflexivity|]. split; [reflexivity|].
  split; [reflexivity|]. split.
  - intros f Hin. cbn in Hin. decompose_list_elem_of; discriminate.
  - eexists. split; [reflexivity|]. split; reflexivity.
Qed.

Lemma edit_profile_valid_post_witness :
  (let r := edit_profile
              (Sample.request_of (AuthUser Sample.bob) "POST" Sample.good_data)
              None None edit_profile_template Sample.site in
   response r = Ok (HttpResponseRedirect "/profiles_profile_detail/bob")
   ∧ (∀ f, Call_save_m2m f ∉ trace r)
   ∧ ∃ p', lookup_profile (profile_rows (world_after r)) Sample.bob = Some p'
           ∧ pk p' = Some 1 ∧ owner p' = Some (VInt 2))
  ∧ (let r := edit_profile
                (Sample.request_of (AuthUser Sample.bob) "POST" Sample.good_data)
                (Some Sample.bio_form) None edit_profile_template Sample.site in
     response r = Raise IntegrityError ∧ world_after r = Sample.site).
Proof.
  split.
  - destruct (edit_profile_valid_post
                (Sample.request_of (AuthUser Sample.bob) "POST" Sample.good_data)
                None None edit_profile_template Sample.site Sample.bob
                Sample.bob_profile Sample.edit_default
                eq_refl eq_refl eq_refl eq_refl eq_refl)
      as (_ & Hm2m & _ & _ & _ & Hdefault).
    destruct (Hdefault eq_refl) as (_ & _ & _ & Hresp & Hstored).
    split; [exact Hresp|]. split; [exact Hm2m|]. exact Hstored.
  - destruct (edit_profile_valid_post
                (Sample.request_of (AuthUser Sample.bob) "POST" Sample.good_data)
                (Some Sample.bio_form) None edit_profile_template Sample.site
                Sample.bob Sample.bob_profile Sample.bio_form
                eq_refl eq_refl eq_refl eq_refl eq_refl)
      as (_ & _ & _ & _ & Hrefused & _).
    exact (Hrefused eq_refl).
Defined.

(** * Further properties of the views *)

(** X1.  A request to [create_profile] whose method is anything but POST, by
    a user without a profile, is answered by rendering the template with an
    unbound form (no data, no initial data, hence no errors); the form is
    not validated, nothing is saved, and the site is left as it was. *)
Theorem create_profile_renders_unbound_form
    request form_class success_url template_name w u m cls :
  user request = AuthUser u →
  lookup_profile (profile_rows w) u = None →
  response (get_profile_model w) = Ok m →
  create_form form_class m = Ok cls →
  method request ≠ "POST" →
  let form := {| form_class_of := cls; data := None; initial := None |} in
  let r := create_profile request form_class success_url template_name w in
  response r = Ok (Rendered template_name [("form", CForm form)])
  ∧ errors form = ∅
  ∧ world_after r = w
  ∧ (∀ f, Call_is_valid f ∉ trace r)
  ∧ (∀ f commit, Call_form_save f commit ∉ trace r)
  ∧ (∀ o, Call_model_save o ∉ trace r).
Proof.
  intros Huser Hnone Hm Hcls Hget form r. subst r.
  rewrite (create_not_post request form_class success_url template_name w u
             Huser (get_profile_missing w u m Hm Hnone) m Hm cls Hcls Hget).
  cbn. fold form. unfold create_prelude.
  repeat split; try done; intros; intros Hin;
    destruct success_url, form_class; decompose_list_elem_of; congruence.
Qed.

Lemma create_profile_renders_unbound_form_witness :
  let r := create_profile (Sample.request_of (AuthUser Sample.alice) "HEAD" ∅)
             None None create_profile_template Sample.site in
  response r = Ok (Rendered create_profile_template
                     [("form", CForm {| form_class_of := Sample.create_default;
                                        data := None; initial := None |})])
  ∧ world_after r = Sample.site.
Proof.
  assert ("HEAD" ≠ "POST") as Hhead by discriminate.
  destruct (create_profile_renders_unbound_form
              (Sample.request_of (AuthUser Sample.alice) "HEAD" ∅)
              None None create_profile_template Sample.site Sample.alice
              Sample.profile_model Sample.create_default
              eq_refl eq_refl eq_refl eq_refl Hhead)
    as (Hresp & _ & Hw & _).
  by split.
Defined.


(** X3.  On a valid POST, [create_profile] calls [form.save(commit=False)],
    then [save()] on the object with its user set, then [form.save_m2m()]
    exactly when the form class has that method; these are the last calls
    of the request, and no save of any kind comes before them. *)
Theorem create_profile_save_sequence
    request form_class success_url template_name w u m cls :
  user request = AuthUser u →
  lookup_profile (profile_rows w) u = None →
  response (get_profile_model w) = Ok m →
  create_form form_class m = Ok cls →
  method request = "POST" →
  let form := {| form_class_of := cls; data := Some (POST request); initial := None |} in
  form_is_valid form = true →
  let obj := set_user (construct_instance cls (base_fields cls) (POST request))
               (AuthUser u) in
  let r := create_profile request form_class success_url template_name w in
  (∃ before,
     trace r = before ++ Call_form_save form false :: Call_model_save obj ::
                 (if hasattr_save_m2m form then [Call_save_m2m form] else [])
     ∧ ∀ c, c ∈ before →
            (∀ f commit, c ≠ Call_form_save f commit)
            ∧ (∀ o, c ≠ Call_model_save o)
            ∧ (∀ f, c ≠ Call_save_m2m f))
  ∧ (∀ f, Call_save_m2m f ∈ trace r ↔ f = form ∧ hasattr_save_m2m form = true).
Proof.
  intros Huser Hnone Hm Hcls Hpost form Hvalid obj r. subst r.
  rewrite (create_post_valid request form_class success_url template_name
             w u Huser (get_profile_missing w u m Hm Hnone) m Hm cls Hcls Hpost Hvalid).
  cbn [trace snd]. fold form obj.
  split.
  - exists (create_prelude form_class success_url u m
            ++ [Call_form_init form; Call_is_valid form]).
    split; [by rewrite <- app_assoc; cbn|].
    intros c Hc. unfold create_prelude in Hc.
    destruct success_url, form_class; decompose_list_elem_of;
      repeat split; intros; intro; congruence.
  - intros f. unfold create_prelude. split.
    + intros Hin. destruct success_url, form_class, (hasattr_save_m2m form);
        decompose_list_elem_of; simplify_eq; by eauto.
    + intros [-> ->]. apply elem_of_app. right.
      apply elem_of_app. right. apply list_elem_of_singleton. done.
Qed.

Lemma create_profile_save_sequence_witness :
  Call_save_m2m {| form_class_of := Sample.create_default;
                   data := Some Sample.good_data; initial := None |}
  ∈ trace (create_profile
             (Sample.request_of (AuthUser Sample.alice) "POST" Sample.good_data)
             None None create_profile_template Sample.site).
Proof.
  apply (proj2 (create_profile_save_sequence
           (Sample.request_of (AuthUser Sample.alice) "POST" Sample.good_data)
           None None create_profile_template Sample.site
           Sample.alice Sample.profile_model Sample.create_default
           eq_refl eq_refl eq_refl eq_refl eq_refl eq_refl)).
  split; reflexivity.
Defined.

(** X4.  The two views change the site only on a valid POST: whenever the
    site after [create_profile] differs from the site before, the request
    was a POST of a logged-in user without a profile whose data the form
    accepted; for [edit_profile], a POST of a user with a profile whose data
    the form accepted.  In particular a request with another method never
    changes anything. *)
Theorem views_change_site_only_on_valid_post
    request form_class success_url template_name w :
  let rc := create_profile request form_class success_url template_name w in
  let re := edit_profile request form_class success_url template_name w in
  (world_after rc = w
   ∨ ∃ u m cls,
       user request = AuthUser u
       ∧ lookup_profile (profile_rows w) u = None
       ∧ response (get_profile_model w) = Ok m
       ∧ create_form form_class m = Ok cls
       ∧ method request = "POST"
       ∧ form_is_valid {| form_class_of := cls; data := Some (POST request);
                          initial := None |} = true)
  ∧ (world_after re = w
     ∨ ∃ u p cls,
         user request = AuthUser u
         ∧ lookup_profile (profile_rows w) u = Some p
         ∧ edit_form form_class p = Ok cls
         ∧ method request = "POST"
         ∧ form_is_valid {| form_class_of := cls; data := Some (POST request);
                            initial := Some (get_initial_data p) |} = true)
  ∧ (method request ≠ "POST" → world_after rc = w ∧ world_after re = w).
Proof.
  intros rc re.
  assert (world_after rc = w
          ∨ ∃ u m cls,
              user request = AuthUser u
              ∧ lookup_profile (profile_rows w) u = None
              ∧ response (get_profile_model w) = Ok m
              ∧ create_form form_class m = Ok cls
              ∧ method request = "POST"
              ∧ form_is_valid {| form_class_of := cls; data := Some (POST request);
                                 initial := None |} = true) as Hc.
  { subst rc.
    destruct (create_profile_cases request form_class success_url template_name w)
      as [[_ ->]|(u & Hu & [(p & _ & ->)|[(e & _ & _ & ->)|(Hn & m & Hm &
           [(e & He & ->)|(cls & Hcls & [(_ & ->)|[(_ & _ & ->)|(Hp & Hv & _)]])])]])];
      try (by left).
    right. exists u, m, cls.
    destruct (get_profile_DoesNotExist _ _ Hn) as [Hnone _]. done. }
  assert (world_after re = w
          ∨ ∃ u p cls,
              user request = AuthUser u
              ∧ lookup_profile (profile_rows w) u = Some p
              ∧ edit_form form_class p = Ok cls
              ∧ method request = "POST"
              ∧ form_is_valid {| form_class_of := cls; data := Some (POST request);
                                 initial := Some (get_initial_data p) |} = true) as He.
  { subst re.
    destruct (edit_profile_cases request form_class success_url template_name w)
      as [[_ ->]|(u & Hu & [(_ & ->)|[(e & _ & _ & ->)|(p & Hsome &
           [(e & He & ->)|(cls & Hcls &
             [(_ & ->)|[(_ & _ & ->)|[(Hp & Hv & _ & _)|(_ & _ & _ & ->)]]])])]])];
      try (by left).
    right. exists u, p, cls.
    destruct (get_profile_Ok _ _ _ Hsome) as [Hrow _]. done. }
  split; [done|]. split; [done|]. intros Hget. split.
  - destruct Hc as [?|(? & ? & ? & _ & _ & _ & _ & ? & _)]; done.
  - destruct He as [?|(? & ? & ? & _ & _ & _ & ? & _)]; done.
Qed.

(** X5.  What the views never call.  [edit_profile] never calls the
    profile-model resolver, [form_for_model] or [save_m2m], and every
    [form.save] it makes commits.  [create_profile] never calls
    [form_for_instance], and every [form.save] it makes is with
    [commit=False].  Neither view looks users up by name. *)
Theorem views_never_call request form_class success_url template_name w :
  let rc := create_profile request form_class success_url template_name w in
  let re := edit_profile request form_class success_url template_name w in
  ((Call_get_profile_model ∉ trace re)
   ∧ (∀ m, Call_form_for_model m ∉ trace re)
   ∧ (∀ f, Call_save_m2m f ∉ trace re)
   ∧ (∀ f, Call_form_save f false ∉ trace re)
   ∧ (∀ n, Call_get_object_or_404 n ∉ trace re))
  ∧ ((∀ p, Call_form_for_instance p ∉ trace rc)
     ∧ (∀ f, Call_form_save f true ∉ trace rc)
     ∧ (∀ n, Call_get_object_or_404 n ∉ trace rc)).
Proof.
  intros rc re. subst rc re. split.
  - destruct (edit_profile_cases request form_class success_url template_name w)
      as [[_ ->]|(u & Hu & [(_ & ->)|[(e & _ & _ & ->)|(p & Hsome &
           [(e & He & ->)|(cls & Hcls &
             [(_ & ->)|[(_ & _ & ->)|[(_ & _ & _ & ->)|(_ & _ & _ & ->)]]])])]])];
      cbn; unfold edit_prelude;
      (repeat split; try done;
       intros; intros Hin; destruct success_url, form_class;
       decompose_list_elem_of; discriminate).
  - destruct (create_profile_cases request form_class success_url template_name w)
      as [[_ ->]|(u & _ & [(p & _ & ->)|[(e & _ & _ & ->)|(_ & m & _ &
           [(e & He & ->)|(cls & _ & [(_ & ->)|[(_ & _ & ->)|(_ & _ & ->)]])])]])];
      cbn; unfold create_prelude;
      (repeat split; try done;
       intros; intros Hin; destruct success_url, form_class;
       try destruct (hasattr_save_m2m _);
       decompose_list_elem_of; discriminate).
Qed.

Lemma hidden_user_no_form_field m :
  user_editable m = false →
  (∀ f, f ∈ own_fields m ++ own_many_to_many m → f_name f ≠ "user") →
  "user" ∉ form_field_names (_meta m).
Proof.
  intros Hed Hown (f & Hf & Hname & Hedit & _)%elem_of_form_field_names.
  unfold _meta in Hf. cbn in Hf.
  apply elem_of_cons in Hf as [->|Hf]; [discriminate|].
  apply elem_of_cons in Hf as [->|Hf].
  - cbn in Hedit. congruence.
  - by apply (Hown f).
Qed.

(** X6.  When the form library makes no form field [user] for the profile
    model, as it does when the model declares its [user] field with
    [editable=False], the default form cannot be prepared: both views,
    called without a form class, raise [KeyError('user')] at the [del],
    after the form class was generated and before any form is instantiated;
    the site is left as it was. *)
Theorem default_form_key_error request success_url template_name w u :
  user request = AuthUser u →
  (∀ m,
     lookup_profile (profile_rows w) u = None →
     response (get_profile_model w) = Ok m →
     "user" ∉ form_field_names (_meta m) →
     create_profile request None success_url template_name w =
       (Raise (KeyError "user"), w, create_prelude None success_url u m))
  ∧ (∀ p,
       response (get_profile (AuthUser u) w) = Ok p →
       "user" ∉ form_field_names (_meta (model p)) →
       edit_profile request None success_url template_name w =
         (Raise (KeyError "user"), w, edit_prelude None success_url u p))
  ∧ (∀ m,
       user_editable m = false →
       (∀ f, f ∈ own_fields m ++ own_many_to_many m → f_name f ≠ "user") →
       "user" ∉ form_field_names (_meta m)).
Proof.
  intros Huser. split; [|split].
  - intros m Hnone Hm Hout.
    apply (create_form_raises request None success_url template_name w u
             Huser (get_profile_missing w u m Hm Hnone) m Hm).
    by apply create_default_needs_user.
  - intros p Hsome Hout.
    apply (edit_form_raises request None success_url template_name w u
             Huser p Hsome).
    by apply edit_default_needs_user.
  - apply hidden_user_no_form_field.
Qed.

Lemma default_form_key_error_witness :
  create_profile (Sample.request_of (AuthUser Sample.alice) "GET" ∅)
    None None create_profile_template Hidden.site
  = (Raise (KeyError "user"), Hidden.site,
     [Call_get_profile Sample.alice; Call_get_profile_model;
      Call_reverse "profiles_profile_detail" [("username", "alice")];
      Call_form_for_model Hidden.hidden_model])
  ∧ response (edit_profile (Sample.request_of (AuthUser Sample.bob) "GET" ∅)
                None None edit_profile_template Hidden.site)
    = Raise (KeyError "user").
Proof.
  assert (∀ f, f ∈ own_fields Hidden.hidden_model
                   ++ own_many_to_many Hidden.hidden_model → f_name f ≠ "user")
    as Hown.
  { intros f Hf. cbn in Hf. decompose_list_elem_of. subst f. cbn. discriminate. }
  pose proof (proj2 (proj2 (default_form_key_error
                (Sample.request_of (AuthUser Sample.alice) "GET" ∅)
                None create_profile_template Hidden.site Sample.alice eq_refl))
                Hidden.hidden_model eq_refl Hown) as Hout.
  split.
  - exact (proj1 (default_form_key_error
             (Sample.request_of (AuthUser Sample.alice) "GET" ∅)
             None create_profile_template Hidden.site Sample.alice eq_refl)
             Hidden.hidden_model eq_refl eq_refl Hout).
  - rewrite (proj1 (proj2 (default_form_key_error
               (Sample.request_of (AuthUser Sample.bob) "GET" ∅)
               None edit_profile_template Hidden.site Sample.bob eq_refl))
               Hidden.bob_row eq_refl Hout).
    reflexivity.
Defined.

(** ** The table under the default forms *)

(** X7.  [create_profile] with the default form never touches a stored
    profile: whatever the request, the table afterwards is the table before
    followed by nothing or by one new row, and that row belongs to the
    requesting user and has a fresh primary key. *)
Theorem create_profile_default_appends request success_url template_name w :
  let r := create_profile request None success_url template_name w in
  ∃ added,
    profile_rows (world_after r) = profile_rows w ++ added
    ∧ (added = []
       ∨ ∃ u row,
           user request = AuthUser u
           ∧ added = [row]
           ∧ owner row = Some (VInt (user_id u))
           ∧ pk row = Some (next_pk (profile_rows w))
           ∧ ∀ old, old ∈ profile_rows w → pk old ≠ pk row).
Proof.
  intros r. subst r.
  destruct (create_profile_cases request None success_url template_name w)
    as [[_ ->]|(u & Hu & [(p & _ & ->)|[(e & _ & _ & ->)|(Hn & m & Hm &
         [(e & He & ->)|(cls & Hcls & [(_ & ->)|[(_ & _ & ->)|(Hp & Hv & ->)]])])]])];
    try (exists []; cbn; rewrite app_nil_r; by auto).
  pose proof (create_default_m2m_no_user m cls (Some (POST request)) None Hcls)
    as Hvals.
  cbn in Hcls. destruct (del_item_Ok _ _ _ Hcls) as (Hbf & _ & Hcons & Hm2m).
  cbn [world_after fst snd profile_rows set_profile_rows].
  set (form := {| form_class_of := cls; data := Some (POST request);
                  initial := None |}) in *.
  set (obj := set_user (construct_instance cls (base_fields cls) (POST request))
                (AuthUser u)).
  assert (pk obj = None) as Hpk.
  { subst obj. by rewrite Hcons. }
  assert (save_row obj (profile_rows w) =
            (profile_rows w ++ [with_pk (next_pk (profile_rows w)) obj],
             with_pk (next_pk (profile_rows w)) obj)) as ->.
  { unfold save_row. by rewrite Hpk. }
  cbn [fst snd].
  set (stored := with_pk (next_pk (profile_rows w)) obj).
  assert (∀ old, old ∈ profile_rows w → pk old ≠ pk stored) as Hfresh.
  { intros old Hold Heq. cbn in Heq.
    pose proof (next_pk_bound _ _ _ Hold Heq). lia. }
  unfold rows_after_m2m.
  destruct (m2m_values form) as [vals|]; cbn in Hvals.
  - exists [write_row vals stored stored]. split.
    + rewrite fmap_app. f_equal. apply fmap_fixed. intros old Hold.
      unfold write_row. rewrite bool_decide_eq_false_2; [done|]. by apply Hfresh.
    + right. exists u, (write_row vals stored stored).
      split; [done|]. split; [done|]. split.
      { rewrite owner_write_row by done. apply owner_set_user. }
      split.
      { unfold write_row. by rewrite bool_decide_eq_true_2. }
      intros old Hold. unfold write_row. rewrite bool_decide_eq_true_2 by done.
      by apply Hfresh.
  - exists [stored]. split; [done|]. right. exists u, stored.
    split; [done|]. split; [done|]. split; [apply owner_set_user|]. by split.
Qed.

(** X8.  [edit_profile] with the default form changes nobody else's
    profile.  On a table whose rows all have a primary key, whatever the
    request, the table keeps its length, and every row whose primary key is
    not that of the requesting user's profile is afterwards what it was. *)
Theorem edit_profile_default_frame request success_url template_name w :
  (∀ row, row ∈ profile_rows w → is_Some (pk row)) →
  let r := edit_profile request None success_url template_name w in
  length (profile_rows (world_after r)) = length (profile_rows w)
  ∧ ∀ i row,
      profile_rows w !! i = Some row →
      (∀ u p, user request = AuthUser u →
              lookup_profile (profile_rows w) u = Some p → pk row ≠ pk p) →
      profile_rows (world_after r) !! i = Some row.
Proof.
  intros Hwf r. subst r.
  destruct (edit_profile_cases request None success_url template_name w)
    as [[_ ->]|(u & Hu & [(_ & ->)|[(e & _ & _ & ->)|(p & Hsome &
         [(e & He & ->)|(cls & Hcls &
           [(_ & ->)|[(_ & _ & ->)|[(Hp & Hv & _ & ->)|(_ & _ & _ & ->)]]])])]])];
    try (cbn; by auto).
  destruct (get_profile_Ok _ _ _ Hsome) as [Hrow _].
  cbn in Hcls. destruct (del_item_Ok _ _ _ Hcls) as (Hbf & _ & Hcons & Hm2m).
  cbn [world_after fst snd profile_rows set_profile_rows].
  set (form := {| form_class_of := cls; data := Some (POST request);
                  initial := Some (get_initial_data p) |}).
  set (obj := construct_instance cls (base_fields cls) (POST request)).
  destruct (lookup_profile_Some _ _ _ Hrow) as [Hin _].
  destruct (Hwf p Hin) as [k Hk].
  assert (pk obj = Some k) as Hpk.
  { subst obj. by rewrite Hcons. }
  assert (save_row obj (profile_rows w) =
            (map (λ r, if has_pk k r then obj else r) (profile_rows w), obj)) as ->.
  { unfold save_row. rewrite Hpk.
    assert (existsb (has_pk k) (profile_rows w) = true) as ->; [|done].
    apply existsb_exists. exists p. split; [by apply list_elem_of_In|].
    unfold has_pk. by apply bool_decide_eq_true. }
  cbn [fst snd]. unfold rows_after_m2m.
  destruct (m2m_values form) as [vals|].
  - split; [by rewrite length_fmap, length_map|].
    intros i row Hi Hother. specialize (Hother u p Hu Hrow).
    rewrite lookup_fmap_rows, lookup_map, Hi. cbn.
    unfold has_pk. rewrite bool_decide_eq_false_2 by congruence.
    unfold write_row. rewrite bool_decide_eq_false_2 by congruence. done.
  - split; [by rewrite length_map|].
    intros i row Hi Hother. specialize (Hother u p Hu Hrow).
    rewrite lookup_map, Hi. cbn.
    unfold has_pk. by rewrite bool_decide_eq_false_2 by congruence.
Qed.

Lemma edit_profile_default_frame_witness :
  profile_rows
    (world_after
       (edit_profile (Sample.request_of (AuthUser Sample.bob) "POST" Sample.good_data)
          None None edit_profile_template Pair.site)) !! 1
  = Some Pair.alice_profile.
Proof.
  assert (∀ row, row ∈ profile_rows Pair.site → is_Some (pk row)) as Hwf.
  { intros row Hrow. cbn in Hrow.
    decompose_list_elem_of; subst; eexists; reflexivity. }
  apply (proj2 (edit_profile_default_frame
                  (Sample.request_of (AuthUser Sample.bob) "POST" Sample.good_data)
                  None edit_profile_template Pair.site Hwf) 1 Pair.alice_profile
           eq_refl).
  intros u p [= <-] Hp.
  assert (p = Sample.bob_profile) as -> by (revert Hp; by intros [= <-]).
  discriminate.
Defined.

(** X9.  After a successful [create_profile] with the default form, or with
    a form class that has no [save_m2m], the user has a profile: every
    later request of that user to [create_profile] is redirected to the
    edit view and changes nothing, so a second profile is not created. *)
Theorem create_profile_only_once
    request form_class success_url template_name w u m cls :
  user request = AuthUser u →
  lookup_profile (profile_rows w) u = None →
  response (get_profile_model w) = Ok m →
  create_form form_class m = Ok cls →
  method request = "POST" →
  form_is_valid {| form_class_of := cls; data := Some (POST request);
                   initial := None |} = true →
  form_class = None ∨ save_m2m_data cls = None →
  let w' := world_after
              (create_profile request form_class success_url template_name w) in
  is_Some (lookup_profile (profile_rows w') u)
  ∧ ∀ request' form_class' success_url' template_name',
      user request' = AuthUser u →
      create_profile request' form_class' success_url' template_name' w' =
        (Ok (HttpResponseRedirect (urlconf w "profiles_edit_profile" [])), w',
         [Call_get_profile u; Call_reverse "profiles_edit_profile" []]).
Proof.
  intros Huser Hnone Hm Hcls Hpost Hvalid Hdefault w'.
  set (form := {| form_class_of := cls; data := Some (POST request);
                  initial := None |}) in *.
  set (obj := set_user (construct_instance cls (base_fields cls) (POST request))
                (AuthUser u)).
  set (stored := save_row obj (profile_rows w)).
  assert (w' = set_profile_rows (rows_after_m2m form stored.2 stored.1) w) as Hw'.
  { subst w'.
    by rewrite (create_post_valid request form_class success_url
                  template_name w u Huser (get_profile_missing w u m Hm Hnone)
                  m Hm cls Hcls Hpost Hvalid). }
  assert (is_Some (lookup_profile (profile_rows w') u)) as [p' Hp'].
  { rewrite Hw'. cbn.
    destruct (save_row_stored obj (profile_rows w)) as [Hin Hown].
    fold stored in Hin, Hown.
    assert (default ∅ (m2m_values form) !! "user" = None) as Hvals.
    { destruct Hdefault as [->|Hno].
      - by apply (create_default_m2m_no_user m).
      - unfold m2m_values. cbn. by rewrite Hno. }
    destruct (rows_after_m2m_owner form stored.2 stored.1 stored.2 Hvals Hin)
      as (row' & Hin' & Hown').
    apply (lookup_profile_is_Some _ _ row' Hin').
    rewrite Hown', Hown. apply owner_set_user. }
  split; [by eexists|].
  intros request' form_class' success_url' template_name' Huser'.
  assert (response (get_profile (AuthUser u) w') = Ok p') as Hfound.
  { apply (get_profile_found w' u m); [|done].
    rewrite Hw'. by rewrite get_profile_model_rows. }
  rewrite (create_has_profile request' form_class' success_url' template_name'
             w' u Huser' p' Hfound).
  by rewrite Hw'.
Qed.

Lemma create_profile_only_once_witness :
  let w' := world_after
              (create_profile
                 (Sample.request_of (AuthUser Sample.alice) "POST" Sample.good_data)
                 None None create_profile_template Sample.site) in
  response (create_profile
              (Sample.request_of (AuthUser Sample.alice) "POST" Sample.good_data)
              None None create_profile_template w')
  = Ok (HttpResponseRedirect "/profiles_edit_profile/").
Proof.
  intros w'. subst w'.
  rewrite (proj2 (create_profile_only_once
             (Sample.request_of (AuthUser Sample.alice) "POST" Sample.good_data)
             None None create_profile_template Sample.site Sample.alice
             Sample.profile_model Sample.create_default
             eq_refl eq_refl eq_refl eq_refl eq_refl eq_refl (or_introl eq_refl))
             (Sample.request_of (AuthUser Sample.alice) "POST" Sample.good_data)
             None None create_profile_template eq_refl).
  reflexivity.
Defined.

(** ** [get_profile_form] *)

(** X10.  [get_profile_form] does not look at the profile setting: on two
    sites with the same table of profiles it gives the same result, it
    never calls the resolver and never raises [SiteProfileNotAvailable];
    it fails only for a user without a profile, with [ObjectDoesNotExist],
    and leaves the site as it was. *)
Theorem get_profile_form_ignores_settings u w1 w2 :
  profile_rows w1 = profile_rows w2 →
  response (get_profile_form u w1) = response (get_profile_form u w2)
  ∧ trace (get_profile_form u w1) = trace (get_profile_form u w2)
  ∧ world_after (get_profile_form u w1) = w1
  ∧ (Call_get_profile_model ∉ trace (get_profile_form u w1))
  ∧ (∀ e, response (get_profile_form u w1) = Raise e →
          e = ObjectDoesNotExist ∧ lookup_profile (profile_rows w1) u = None).
Proof.
  intros Hrows. rewrite !get_profile_form_run, <- Hrows.
  destruct (lookup_profile (profile_rows w1) u) as [p|]; cbn.
  - split; [done|]. split; [done|]. split; [done|]. split; [|done].
    intros Hin. decompose_list_elem_of; discriminate.
  - split; [done|]. split; [done|]. split; [done|]. split.
    + intros Hin. decompose_list_elem_of; discriminate.
    + by intros e [= <-].
Qed.

Lemma get_profile_form_ignores_settings_witness :
  response (get_profile_form Sample.bob Sample.site_unset)
  = response (get_profile_form Sample.bob Sample.site)
  ∧ response (get_profile_form Sample.bob Sample.site_unset)
    = Ok {| meta_model := Sample.bob_profile; meta_exclude := ["user"];
            declared_fields :=
              fields_for_model (_meta Sample.profile_model) None ["user"] |}.
Proof.
  split.
  - exact (proj1 (get_profile_form_ignores_settings Sample.bob Sample.site_unset
                    Sample.site eq_refl)).
  - reflexivity.
Defined.

(** X12.  The initial data that [edit_profile] hands to its default form on
    a POST have keys that the form has no field for.  [get_initial_data]
    also reads the [user] field, whose value is the id of the requesting
    user, and the primary key [id]; the form has neither.  Every field of
    the form has a key in the initial data, and a key without a field of
    the form is [user] or the name of a model field that is not editable or
    is the automatic primary key. *)
Theorem initial_data_has_user_key w u p cls :
  response (get_profile (AuthUser u) w) = Ok p →
  edit_form None p = Ok cls →
  NoDup (field_names (_meta (model p))) →
  get_initial_data p !! "user" = Some (VInt (user_id u))
  ∧ base_fields cls !! "user" = None
  ∧ get_initial_data p !! "id" =
      Some (match pk p with Some k => VInt k | None => VNone end)
  ∧ base_fields cls !! "id" = None
  ∧ dom (base_fields cls) ⊆ dom (get_initial_data p) ∖ {["user"; "id"]}
  ∧ (∀ name, name ∈ dom (get_initial_data p) → name ∉ dom (base_fields cls) →
       name = "user"
       ∨ ∃ f, f ∈ fields (_meta (model p)) ++ many_to_many (_meta (model p))
              ∧ f_name f = name ∧ (editable f = false ∨ kind f = Auto)).
Proof.
  intros Hsome Hcls Hnd.
  destruct (get_profile_Ok _ _ _ Hsome) as [Hrow _].
  destruct (lookup_profile_Some _ _ _ Hrow) as [_ Hown].
  pose proof (edit_default_dom p cls Hcls) as Hdom.
  assert (AutoField "id" ∈ fields (_meta (model p)) ++ many_to_many (_meta (model p)))
    as Hid.
  { unfold _meta. cbn. apply elem_of_cons. by left. }
  assert (ForeignKey "user" (user_editable (model p))
            ∈ fields (_meta (model p)) ++ many_to_many (_meta (model p))) as Huser.
  { unfold _meta. cbn. apply elem_of_cons. right. apply elem_of_cons. by left. }
  assert ("id" ∉ form_field_names (_meta (model p))) as Hnoid.
  { intros (f & Hf & Hname & _ & Hkind)%elem_of_form_field_names.
    apply Hkind.
    by rewrite (NoDup_fmap_eq f_name _ f (AutoField "id") Hnd Hf Hid Hname). }
  split; [|split; [|split; [|split; [|split]]]].
  - rewrite (get_initial_data_lookup p (ForeignKey "user" (user_editable (model p)))
               Hnd Huser : get_initial_data p !! "user" = _).
    unfold value_from_object, owner in *. cbn. by rewrite Hown.
  - apply not_elem_of_dom. rewrite Hdom.
    intros [_ Hout]%elem_of_difference. apply Hout. by apply elem_of_singleton.
  - exact (get_initial_data_lookup p (AutoField "id") Hnd Hid).
  - apply not_elem_of_dom. rewrite Hdom.
    intros [Hin%elem_of_list_to_set _]%elem_of_difference. done.
  - intros name. rewrite Hdom, get_initial_data_dom.
    rewrite !elem_of_difference, !elem_of_list_to_set, elem_of_union,
      !elem_of_singleton.
    intros [Hin Hne]. split.
    + apply elem_of_form_field_names in Hin as (f & Hf & <- & _).
      unfold field_names. by apply list_elem_of_fmap_2.
    + intros [->| ->]; done.
  - intros name Hin Hout. rewrite Hdom in Hout.
    rewrite get_initial_data_dom in Hin. apply elem_of_list_to_set in Hin.
    destruct (decide (name = "user")) as [|Hne]; [by left|]. right.
    unfold field_names in Hin. apply list_elem_of_fmap in Hin as (f & -> & Hf).
    exists f. split; [done|]. split; [done|].
    destruct (editable f) eqn:Hed; [|by left]. right.
    destruct (decide (kind f = Auto)) as [|Hkind]; [done|].
    exfalso. apply Hout. apply elem_of_difference. split.
    + apply elem_of_list_to_set, elem_of_form_field_names. eauto.
    + by intros ?%elem_of_singleton.
Qed.

Lemma initial_data_has_user_key_witness :
  get_initial_data Sample.bob_profile !! "user" = Some (VInt 2)
  ∧ base_fields Sample.edit_default !! "user" = None
  ∧ get_initial_data Sample.bob_profile !! "id" = Some (VInt 1)
  ∧ base_fields Sample.edit_default !! "id" = None.
Proof.
  assert (NoDup (field_names (_meta (model Sample.bob_profile)))) as Hnd.
  { apply (bool_decide_unpack _). reflexivity. }
  destruct (initial_data_has_user_key Sample.site Sample.bob Sample.bob_profile
              Sample.edit_default eq_refl eq_refl Hnd)
    as (Hinit & Hform & Hid & Hnoid & _).
  split; [exact Hinit|]. split; [exact Hform|]. split; [exact Hid|exact Hnoid].
Defined.
